(** * Store-synthesis pipeline of the Shopify store builder

    A shallow embedding of the backend's pipeline:
    - [app/ai/image_enhancer.py]   (LeonardoImageEnhancer),
    - [app/ai/content_generator.py] (AIContentGenerator),
    - [app/services/store_generator.py] (StoreGeneratorService),
    - [app/api/stores.py] (the publish route),
    followed by the properties of the specification that were checked
    against it.

    Python coroutines become functions in a state-and-exception monad.
    The outside world (HTTP services, the clock) is an abstract type [W]
    with one operation per kind of call the code makes; every call is
    also recorded, with the reply it got, in an event log. *)

From stdpp Require Import base option list gmap strings pretty.
From Stdlib Require Import ZArith Ascii.

Local Open Scope Z_scope.
Local Open Scope string_scope.

(** ** Exceptions and outcomes *)

(** The exception classes the code raises or catches. All of them are
    subclasses of Python's [Exception]. *)
Inductive exn_class :=
  | PlainException
  | JSONDecodeError
  | KeyError
  | TypeError
  | ValidationError
  | AttributeError
  | TransportError.

Record exn := Exn { exn_cls : exn_class; exn_msg : string }.

(** [str(e)] *)
Definition str (e : exn) : string := exn_msg e.

Inductive outcome (A : Type) :=
  | Ok (a : A)
  | Raised (e : exn).
Arguments Ok {A} a.
Arguments Raised {A} e.

(** ** Data model *)

Definition bytes := list Byte.byte.

(** A Python [Dict[str, str]], in insertion order. *)
Definition str_dict := list (string * string).

(** [d.get(k, default)] *)
Fixpoint dict_get (d : str_dict) (k : string) (default : string) : string :=
  match d with
  | [] => default
  | (k', v) :: rest => if String.eqb k' k then v else dict_get rest k default
  end.

(** [class EnhancedImage(BaseModel)]; [processing_time] is a difference of
    two clock readings, kept in the clock's integral unit. *)
Record EnhancedImage := {
  original_url : string;
  enhanced_url : string;
  style : string;
  processing_time : Z;
  enhancement_type : string
}.

(** The JSON body posted to [/generations]. Only the entries that differ
    between the call sites are kept; [init_image] stands for the base64
    text of the image and [init_strength_pct] for the strength in
    hundredths. *)
Record payload := {
  prompt : string;
  negative_prompt : string;
  guidance_scale : Z;
  presetStyle : string;
  init_image : option bytes;
  init_strength_pct : option Z
}.

(** The part of [data["generations_by_pk"]] the poll loop reads. *)
Record generation := {
  gen_status : string;
  generated_images : list string
}.

(** [class ScrapedProduct(BaseModel)] (the fields [brand], [rating] and
    [reviews_count] are never read by the pipeline and are left out). *)
Record ScrapedProduct := {
  sp_title : string;
  sp_description : string;
  sp_price : option string;
  sp_images : list string;
  sp_features : list string;
  sp_specifications : str_dict;
  sp_category : string
}.

(** [class ProductInfo(BaseModel)] *)
Record ProductInfo := {
  title : string;
  description : string;
  features : list string;
  specifications : str_dict;
  category : string;
  price_range : option string
}.

(** The six generation requests of the content generator. The prompt of
    a request is a function of its call site and of the product. *)
Inductive call_site :=
  | ProductCopy | SeoContent | HomepageContent | AboutPage | FaqContent | Keywords.

(** The dictionary handed to [ShopifyClient.create_product]. *)
Record product_fields := {
  pf_title : string;
  pf_body_html : string;
  pf_vendor : string;
  pf_product_type : string;
  pf_tags : string;
  pf_images : list string
}.

(** The dictionary handed to [ShopifyClient.create_page]. *)
Record page_fields := {
  pg_title : string;
  pg_body_html : string;
  pg_published : bool
}.

(** ** The outside world *)

(** One constructor per kind of call, each with the reply it got. *)
Inductive event :=
  | EvDownload (url : string) (r : outcome bytes)
  | EvSubmit (p : payload) (r : outcome string)
  | EvPoll (generation_id : string) (r : outcome generation)
  | EvSleep (seconds : Z)
  | EvChat (site : call_site) (info : ProductInfo) (r : outcome (option string))
  | EvScrape (url : string) (r : outcome ScrapedProduct)
  | EvCreateProduct (f : product_fields) (r : outcome Z)
  | EvCreatePage (f : page_fields) (r : outcome Z).

(** A call to the commerce platform. *)
Definition is_platform_call (e : event) : bool :=
  match e with
  | EvCreateProduct _ _ | EvCreatePage _ _ => true
  | _ => false
  end.

(** Any call that leaves the process. *)
Definition is_network_call (e : event) : bool :=
  match e with
  | EvSleep _ => false
  | _ => true
  end.

(** What the code assumes of its collaborators. An [outcome] of
    [Raised] covers a transport error, an HTTP error status
    ([raise_for_status]) and a reply that lacks the keys the code
    indexes. *)
Class World (W : Type) := {
  (** [client.get(url)], [raise_for_status], [response.content] *)
  world_download : string → W → outcome bytes * W;
  (** [client.post(base_url/generations)], then
      [generation_data["sdGenerationJob"]["generationId"]] *)
  world_submit : payload → W → outcome string * W;
  (** [client.get(base_url/generations/id)], then
      [data["generations_by_pk"]] *)
  world_poll : string → W → outcome generation * W;
  (** [asyncio.sleep(seconds)] *)
  world_sleep : Z → W → W;
  (** [time.time()] *)
  world_time : W → Z;
  (** [client.chat.completions.create(...)], then
      [response.choices[0].message.content] *)
  world_chat : call_site → ProductInfo → W → outcome (option string) * W;
  (** [ProductScraperService.scrape_product] *)
  world_scrape : string → W → outcome ScrapedProduct * W;
  (** [ShopifyClient.create_product], giving the product's id *)
  world_create_product : product_fields → W → outcome Z * W;
  (** [ShopifyClient.create_page] *)
  world_create_page : page_fields → W → outcome Z * W
}.

(** A JSON value, as [json.loads] returns it. *)
#[warnings="-register-all"]
Inductive json :=
  | JNull
  | JBool (b : bool)
  | JNum (n : Z)
  | JStr (s : string)
  | JArr (items : list json)
  | JObj (entries : list (string * json)).

(** Pure library functions and settings the code relies on. *)
Class Library := {
  (** [json.loads]: [None] stands for [JSONDecodeError] *)
  json_loads : string → option json;
  (** [hashlib.md5(data).hexdigest()] *)
  md5_hexdigest : bytes → string;
  (** [datetime.isoformat()] on a timestamp *)
  isoformat : Z → string;
  (** [settings.AWS_S3_BUCKET] *)
  AWS_S3_BUCKET : string
}.

(** ** The monad of coroutines *)

(** A computation over a state [S] that returns a value or raises. *)
Definition ST (S : Type) (A : Type) : Type := S → outcome A * S.

Definition st_ret {S A} (a : A) : ST S A := λ st, (Ok a, st).

Definition st_bind {S A B} (f : A → ST S B) (m : ST S A) : ST S B :=
  λ st, match m st with
        | (Ok a, st') => f a st'
        | (Raised e, st') => (Raised e, st')
        end.

#[export] Instance ST_ret {S} : MRet (ST S) := @st_ret S.
#[export] Instance ST_bind {S} : MBind (ST S) := @st_bind S.
#[export] Instance ST_fmap {S} : FMap (ST S) :=
  λ A B f m, st_bind (λ a, st_ret (f a)) m.

(** [raise e] *)
Definition raise {S A} (e : exn) : ST S A := λ st, (Raised e, st).

(** [try: body  except Exception as e: handler(e)] *)
Definition try_except {S A} (body : ST S A) (handler : exn → ST S A) : ST S A :=
  λ st, match body st with
        | (Ok a, st') => (Ok a, st')
        | (Raised e, st') => handler e st'
        end.

(** The state a coroutine of the two AI clients runs in: the world and
    the log of the calls made so far. *)
Record io_state (W : Type) := IoState { world : W; log : list event }.
Arguments IoState {W} world log.
Arguments world {W} _.
Arguments log {W} _.

Abbreviation IO W := (ST (io_state W)).

(** A call to the world: perform it and log it with its reply. *)
Definition call {W A} (op : W → outcome A * W) (ev : outcome A → event) : IO W A :=
  λ st, let '(r, w') := op (world st) in
        (r, IoState w' (log st ++ [ev r])).

(** [asyncio.gather] over a list of tasks. The tasks share no program state, so
    the result of each depends only on the replies it gets itself; they
    are run here one after the other in list order, and a statement for
    every world covers every assignment of replies to tasks that an
    interleaved run can see. *)
Fixpoint gather_all {W A} (tasks : list (IO W A)) (st : io_state W)
    : list (outcome A) * io_state W :=
  match tasks with
  | [] => ([], st)
  | t :: ts =>
      let '(r, st1) := t st in
      let '(rs, st2) := gather_all ts st1 in
      (r :: rs, st2)
  end.

(** [asyncio.gather] with [return_exceptions=True]: exceptions are
    results. *)
Definition gather_return_exceptions {W A} (tasks : list (IO W A))
    : IO W (list (outcome A)) :=
  λ st, let '(rs, st') := gather_all tasks st in (Ok rs, st').

(** The first exception among the results, if any, else the values. *)
Fixpoint collect {A} (rs : list (outcome A)) : outcome (list A) :=
  match rs with
  | [] => Ok []
  | Raised e :: _ => Raised e
  | Ok a :: rest =>
      match collect rest with
      | Ok l => Ok (a :: l)
      | Raised e => Raised e
      end
  end.

(** [asyncio.gather] without [return_exceptions]: an exception of a task is raised in the
    caller (of several, the first in list order is taken here). *)
Definition gather {W A} (tasks : list (IO W A)) : IO W (list A) :=
  λ st, let '(rs, st') := gather_all tasks st in (collect rs, st').

Section Enhancer.
Context {W : Type} `{World W} `{Library}.

(** *** [LeonardoImageEnhancer] *)

Definition time_time : IO W Z := λ st, (Ok (world_time (world st)), st).

Definition asyncio_sleep (seconds : Z) : IO W unit :=
  λ st, (Ok tt, IoState (world_sleep seconds (world st)) (log st ++ [EvSleep seconds])).

(** [_download_image] *)
Definition _download_image (url : string) : IO W bytes :=
  call (world_download url) (EvDownload url).

Definition max_attempts : nat := 30.

(** One iteration of the [while] loop of [_poll_generation_completion]:
    [Some r] leaves the loop with [r] ([return] or [raise]), [None]
    goes on to the sleep. *)
Definition poll_step (g : generation) : option (outcome string) :=
  if String.eqb (gen_status g) "COMPLETE" then
    match generated_images g with
    | url :: _ => Some (Ok url)
    | [] => Some (Raised (Exn PlainException "No images generated"))
    end
  else if String.eqb (gen_status g) "FAILED" then
    Some (Raised (Exn PlainException "Image generation failed"))
  else None.

(** The loop [while attempt < max_attempts], by recursion on the
    number [remaining] of attempts that are left. *)
Fixpoint poll_loop (generation_id : string) (remaining : nat) : IO W string :=
  match remaining with
  | O => raise (Exn PlainException "Generation timeout")
  | S remaining' =>
      g ← call (world_poll generation_id) (EvPoll generation_id);
      match poll_step g with
      | Some (Ok url) => mret url
      | Some (Raised e) => raise e
      | None =>
          asyncio_sleep 10;;
          poll_loop generation_id remaining'
      end
  end.

(** [_poll_generation_completion] *)
Definition _poll_generation_completion (generation_id : string) : IO W string :=
  poll_loop generation_id max_attempts.

(** The body every pass runs inside its [try]: start the generation,
    poll for completion, download the result. *)
Definition run_generation (p : payload) : IO W bytes :=
  generation_id ← call (world_submit p) (EvSubmit p);
  enhanced_url ← _poll_generation_completion generation_id;
  _download_image enhanced_url.

Definition quality_payload (image_data : bytes) : payload :=
  {| prompt := "high quality product photo, professional lighting, clean background, commercial photography style";
     negative_prompt := "blurry, low quality, pixelated, distorted, watermark, text";
     guidance_scale := 7;
     presetStyle := "PHOTOGRAPHY";
     init_image := Some image_data;
     init_strength_pct := Some 30 |}.

(** [_enhance_image_quality] *)
Definition _enhance_image_quality (image_data : bytes) : IO W bytes :=
  try_except (run_generation (quality_payload image_data))
             (λ _, mret image_data).

Definition background_payload (image_data : bytes) : payload :=
  {| prompt := "product on transparent background, isolated object, clean cutout, white background";
     negative_prompt := "busy background, cluttered, multiple objects, text, watermark";
     guidance_scale := 8;
     presetStyle := "NONE";
     init_image := Some image_data;
     init_strength_pct := Some 50 |}.

(** [_remove_background] *)
Definition _remove_background (image_data : bytes) : IO W bytes :=
  try_except (run_generation (background_payload image_data))
             (λ _, mret image_data).

Definition style_prompts : str_dict :=
  [ ("modern", "modern minimalist product photography, clean lines, contemporary style, professional lighting");
    ("luxury", "luxury product photography, premium quality, elegant styling, sophisticated lighting, high-end commercial");
    ("minimal", "minimalist product photo, simple clean background, soft lighting, zen aesthetic");
    ("professional", "professional commercial photography, studio lighting, corporate style, business quality") ].

Definition style_payload (image_data : bytes) (style : string) : payload :=
  let style_prompt :=
    dict_get style_prompts style
      "modern minimalist product photography, clean lines, contemporary style, professional lighting" in
  {| prompt := style_prompt ++ ", high resolution, sharp details, commercial quality";
     negative_prompt := "blurry, low quality, amateur, poor lighting, distorted";
     guidance_scale := 6;
     presetStyle := "PHOTOGRAPHY";
     init_image := Some image_data;
     init_strength_pct := Some 20 |}.

(** [_apply_style_enhancement] *)
Definition _apply_style_enhancement (image_data : bytes) (style : string) : IO W bytes :=
  try_except (run_generation (style_payload image_data style))
             (λ _, mret image_data).

(** [_upload_enhanced_image]: no upload is made, the URL is computed. *)
Definition _upload_enhanced_image (image_data : bytes) : IO W string :=
  mret ("https://" ++ AWS_S3_BUCKET ++ ".s3.amazonaws.com/enhanced/"
        ++ md5_hexdigest image_data ++ ".jpg").

(** [enhance_single_image] *)
Definition enhance_single_image (image_url : string) (style : string)
    (enhance_quality : bool) (remove_background : bool) : IO W EnhancedImage :=
  start_time ← time_time;
  try_except
    (original_image ← _download_image image_url;
     enhanced_image ←
       (if enhance_quality then _enhance_image_quality original_image
        else mret original_image);
     enhanced_image ←
       (if remove_background then _remove_background enhanced_image
        else mret enhanced_image);
     final_image ← _apply_style_enhancement enhanced_image style;
     enhanced_url ← _upload_enhanced_image final_image;
     now ← time_time;
     mret {| original_url := image_url;
             enhanced_url := enhanced_url;
             style := style;
             processing_time := now - start_time;
             enhancement_type := "full_enhancement" |})
    (λ _,
     now ← time_time;
     mret {| original_url := image_url;
             enhanced_url := image_url;
             style := style;
             processing_time := now - start_time;
             enhancement_type := "fallback_original" |}).

(** [isinstance(result, EnhancedImage)] on a result of [gather] *)
Definition as_enhanced_image (result : outcome EnhancedImage) : option EnhancedImage :=
  match result with
  | Ok img => Some img
  | Raised _ => None
  end.

(** [enhance_product_images] ([remove_background] is never passed and
    keeps its default [False]) *)
Definition enhance_product_images (image_urls : list string) (style : string)
    (enhance_quality : bool) : IO W (list EnhancedImage) :=
  let tasks :=
    map (λ url, enhance_single_image url style enhance_quality false)
        (take 5 image_urls) in
  results ← gather_return_exceptions tasks;
  mret (omap as_enhanced_image results).

End Enhancer.

(** ** Python values *)

#[export] Instance outcome_ret : MRet outcome := @Ok.
#[export] Instance outcome_bind : MBind outcome :=
  λ A B f m, match m with Ok a => f a | Raised e => Raised e end.

(** An exception or value computed without the world, inside a coroutine. *)
Definition lift_outcome {S A} (r : outcome A) : ST S A := λ st, (r, st).

(** [s[:n]] on a string (a string is its sequence of bytes here, so
    the two agree on ASCII text) *)
Definition str_take (n : nat) (s : string) : string := String.substring 0 n s.

Definition ascii_lower (c : ascii) : ascii :=
  let n := nat_of_ascii c in
  if ((65 <=? n) && (n <=? 90))%nat then ascii_of_nat (n + 32) else c.

(** [s.lower()], on the ASCII letters *)
Fixpoint lower (s : string) : string :=
  match s with
  | EmptyString => EmptyString
  | String c rest => String (ascii_lower c) (lower rest)
  end.

(** The value stored under [key] in a dictionary. *)
Fixpoint obj_lookup (entries : list (string * json)) (key : string) : option json :=
  match entries with
  | [] => None
  | (k, v) :: rest => if String.eqb k key then Some v else obj_lookup rest key
  end.

(** [value[key]] with a string key, on a value that came out of
    [json.loads] or of a fallback *)
Definition py_getitem (value : json) (key : string) : outcome json :=
  match value with
  | JObj entries =>
      match obj_lookup entries key with
      | Some v => Ok v
      | None => Raised (Exn KeyError ("'" ++ key ++ "'"))
      end
  | JArr _ => Raised (Exn TypeError "list indices must be integers or slices, not str")
  | JStr _ => Raised (Exn TypeError "string indices must be integers")
  | _ => Raised (Exn TypeError "object is not subscriptable")
  end.

(** Validation of the fields of [GeneratedContent] by the model class:
    a [str] field takes a string, a [List] field a list and a [Dict]
    field a dictionary, with members of the declared type. *)
Definition as_str (field : string) (v : json) : outcome string :=
  match v with
  | JStr s => Ok s
  | _ => Raised (Exn ValidationError field)
  end.

Fixpoint as_list {A} (item : json → outcome A) (vs : list json) : outcome (list A) :=
  match vs with
  | [] => Ok []
  | v :: rest => a ← item v; l ← as_list item rest; Ok (a :: l)
  end.

Definition as_str_list (field : string) (v : json) : outcome (list string) :=
  match v with
  | JArr items => as_list (as_str field) items
  | _ => Raised (Exn ValidationError field)
  end.

Fixpoint as_entries (field : string) (entries : list (string * json)) : outcome str_dict :=
  match entries with
  | [] => Ok []
  | (k, v) :: rest => s ← as_str field v; l ← as_entries field rest; Ok ((k, s) :: l)
  end.

Definition as_str_dict (field : string) (v : json) : outcome str_dict :=
  match v with
  | JObj entries => as_entries field entries
  | _ => Raised (Exn ValidationError field)
  end.

Definition as_dict_list (field : string) (v : json) : outcome (list str_dict) :=
  match v with
  | JArr items => as_list (as_str_dict field) items
  | _ => Raised (Exn ValidationError field)
  end.

(** A Python dictionary or list of strings as a JSON value. *)
Definition of_str_dict (d : str_dict) : json :=
  JObj (map (λ kv, (kv.1, JStr kv.2)) d).

Definition of_str_list (l : list string) : json := JArr (map JStr l).

(** ** [AIContentGenerator] *)

(** [class GeneratedContent(BaseModel)] *)
Record GeneratedContent := {
  product_title : string;
  product_description : string;
  seo_title : string;
  seo_description : string;
  homepage_hero : str_dict;
  about_page : string;
  faq_items : list str_dict;
  product_benefits : list string;
  keywords : list string
}.

Section ContentGenerator.
Context {W : Type} `{World W} `{Library}.

(** [await self.client.chat.completions.create(...)] followed by
    [response.choices[0].message.content] *)
Definition chat_completions_create (site : call_site) (product_info : ProductInfo)
    : IO W (option string) :=
  call (world_chat site product_info) (EvChat site product_info).

(** [try: return json.loads(content)  except json.JSONDecodeError:
    return fallback(content)]. Only the decoding error is caught: a
    [content] of [None] makes [json.loads] raise [TypeError]. *)
Definition loads_or_fallback (content : option string) (fallback : string → json)
    : IO W json :=
  match content with
  | None => raise (Exn TypeError "the JSON object must be str, bytes or bytearray, not NoneType")
  | Some text =>
      match json_loads text with
      | Some value => mret value
      | None => mret (fallback text)
      end
  end.

Definition product_copy_fallback (product_info : ProductInfo) (content : string) : json :=
  JObj [ ("title", JStr (title product_info));
         ("description", JStr (str_take 300 content));
         ("benefits", of_str_list (take 5 (features product_info))) ].

(** [generate_product_copy] *)
Definition generate_product_copy (product_info : ProductInfo) : IO W json :=
  content ← chat_completions_create ProductCopy product_info;
  loads_or_fallback content (product_copy_fallback product_info).

Definition seo_fallback (product_info : ProductInfo) : json :=
  JObj [ ("title", JStr (title product_info ++ " - Best Quality Online Store"));
         ("description", JStr ("Shop " ++ title product_info
            ++ " with fast shipping and great prices. Premium quality guaranteed.")) ].

(** [generate_seo_content] *)
Definition generate_seo_content (product_info : ProductInfo) : IO W json :=
  content ← chat_completions_create SeoContent product_info;
  loads_or_fallback content (λ _, seo_fallback product_info).

Definition homepage_fallback (product_info : ProductInfo) : json :=
  JObj [ ("headline", JStr ("Premium " ++ category product_info ++ " Collection"));
         ("subheadline", JStr ("Discover high-quality " ++ title product_info
            ++ " with fast shipping worldwide"));
         ("cta_text", JStr "Shop Now");
         ("features_headline", JStr "Why Choose Us") ].

(** [generate_homepage_content] *)
Definition generate_homepage_content (product_info : ProductInfo) : IO W json :=
  content ← chat_completions_create HomepageContent product_info;
  loads_or_fallback content (λ _, homepage_fallback product_info).

(** [generate_about_page]: the reply is returned as it is, there is
    no [try] and no fallback. *)
Definition generate_about_page (product_info : ProductInfo) : IO W (option string) :=
  chat_completions_create AboutPage product_info.

Definition faq_fallback : json :=
  JArr [ JObj [ ("question", JStr "What is your shipping policy?");
                ("answer", JStr "We offer free shipping on orders over $50. Standard delivery takes 3-7 business days.") ];
         JObj [ ("question", JStr "What is your return policy?");
                ("answer", JStr "We accept returns within 30 days of delivery for a full refund. Items must be in original condition.") ];
         JObj [ ("question", JStr "Is this product authentic?");
                ("answer", JStr "Yes, all our products are 100% authentic and come with a quality guarantee.") ] ].

(** [generate_faq_content] *)
Definition generate_faq_content (product_info : ProductInfo) : IO W json :=
  content ← chat_completions_create FaqContent product_info;
  loads_or_fallback content (λ _, faq_fallback).

Definition keywords_fallback (product_info : ProductInfo) : json :=
  JArr [ JStr (lower (title product_info));
         JStr ("best " ++ category product_info);
         JStr ("buy " ++ title product_info);
         JStr (category product_info ++ " online");
         JStr ("premium " ++ category product_info) ].

(** [generate_keywords] *)
Definition generate_keywords (product_info : ProductInfo) : IO W json :=
  content ← chat_completions_create Keywords product_info;
  loads_or_fallback content (λ _, keywords_fallback product_info).

(** The value of the about page among the results of [gather]. *)
Definition of_about (text : option string) : json :=
  match text with
  | Some s => JStr s
  | None => JNull
  end.

(** The call [GeneratedContent(...)]: the arguments are evaluated in
    the order they are written, then the model validates them. *)
Definition build_content (r0 r1 r2 r3 r4 r5 : json) : outcome GeneratedContent :=
  a_product_title ← py_getitem r0 "title";
  a_product_description ← py_getitem r0 "description";
  a_seo_title ← py_getitem r1 "title";
  a_seo_description ← py_getitem r1 "description";
  a_product_benefits ← py_getitem r0 "benefits";
  v_product_title ← as_str "product_title" a_product_title;
  v_product_description ← as_str "product_description" a_product_description;
  v_seo_title ← as_str "seo_title" a_seo_title;
  v_seo_description ← as_str "seo_description" a_seo_description;
  v_homepage_hero ← as_str_dict "homepage_hero" r2;
  v_about_page ← as_str "about_page" r3;
  v_faq_items ← as_dict_list "faq_items" r4;
  v_product_benefits ← as_str_list "product_benefits" a_product_benefits;
  v_keywords ← as_str_list "keywords" r5;
  Ok {| product_title := v_product_title;
        product_description := v_product_description;
        seo_title := v_seo_title;
        seo_description := v_seo_description;
        homepage_hero := v_homepage_hero;
        about_page := v_about_page;
        faq_items := v_faq_items;
        product_benefits := v_product_benefits;
        keywords := v_keywords |}.

(** [generate_complete_content] *)
Definition generate_complete_content (product_info : ProductInfo)
    : IO W GeneratedContent :=
  let tasks :=
    [ generate_product_copy product_info;
      generate_seo_content product_info;
      generate_homepage_content product_info;
      of_about <$> generate_about_page product_info;
      generate_faq_content product_info;
      generate_keywords product_info ] in
  results ← gather tasks;
  match results with
  | [r0; r1; r2; r3; r4; r5] => lift_outcome (build_content r0 r1 r2 r3 r4 r5)
  | _ => raise (Exn PlainException "list index out of range")
  end.

End ContentGenerator.

(** ** [StoreGeneratorService] *)

(** The [product] entry of the store document. *)
Record product_data := {
  pd_title : string;
  pd_description : string;
  pd_benefits : list string;
  pd_original_title : string;
  pd_original_description : string;
  pd_price : option string;
  pd_features : list string;
  pd_specifications : str_dict;
  pd_category : string;
  pd_images_original : list string;
  pd_images_enhanced : list string
}.

Record featured_product := {
  fp_title : string;
  fp_description : string;
  fp_image : option string;
  fp_cta_text : string
}.

Record features_section := {
  fs_headline : string;
  fs_features : list string
}.

(** The [homepage] entry. *)
Record homepage_data := {
  hp_hero : str_dict;
  hp_featured_product : featured_product;
  hp_features_section : features_section
}.

(** A page of the [pages] entry: text content, or the items of the FAQ. *)
Inductive page :=
  | ContentPage (page_title : string) (content : string)
  | ItemsPage (page_title : string) (items : list str_dict).

(** The [seo] entry. *)
Record seo_data := {
  sd_title : string;
  sd_description : string;
  sd_keywords : list string;
  og_image : option string
}.

(** The [theme] entry. *)
Record theme_data := {
  th_style : string;
  th_colors : str_dict;
  th_fonts : str_dict;
  th_layout : str_dict
}.

(** The dictionary [_build_store_structure] returns; [pages] keeps the
    insertion order of its keys. *)
Record store_data := {
  product : product_data;
  homepage : homepage_data;
  pages : list (string * page);
  seo : seo_data;
  theme : theme_data;
  generated_at : string;
  doc_store_name : string;
  source_url : string
}.

(** [class Store(Base)]: the columns the pipeline reads or writes, with
    [Store_id] for the column [id]. An
    empty [ai_generated_content] is [None]; [brand_colors] is falsy when
    it is the empty dictionary. *)
Record Store := {
  Store_id : Z;
  user_id : Z;
  store_name : string;
  shopify_store_url : option string;
  source_product_url : string;
  ai_generated_content : option store_data;
  enhanced_images : list EnhancedImage;
  theme_style : string;
  brand_colors : str_dict;
  status : string;
  generation_progress : Z;
  error_message : option string;
  store_seo_title : option string;
  store_seo_description : option string;
  store_seo_keywords : list string;
  created_at : option Z
}.

(** [class User(Base)]: the columns the publisher reads, with [User_id]
    for the column [id]. *)
Record User := {
  User_id : Z;
  shopify_shop_domain : string;
  shopify_access_token : string;
  company : option string
}.

(** Assignments to the attributes of a [Store] object. *)
Definition set_progress (progress : Z) (message : string) (s : Store) : Store :=
  {| Store_id := Store_id s; user_id := user_id s; store_name := store_name s;
     shopify_store_url := shopify_store_url s;
     source_product_url := source_product_url s;
     ai_generated_content := ai_generated_content s;
     enhanced_images := enhanced_images s;
     theme_style := theme_style s; brand_colors := brand_colors s;
     status := status s;
     generation_progress := progress;
     error_message := Some message;
     store_seo_title := store_seo_title s;
     store_seo_description := store_seo_description s;
     store_seo_keywords := store_seo_keywords s;
     created_at := created_at s |}.

Definition set_completed (doc : store_data) (images : list EnhancedImage)
    (content : GeneratedContent) (s : Store) : Store :=
  {| Store_id := Store_id s; user_id := user_id s; store_name := store_name s;
     shopify_store_url := shopify_store_url s;
     source_product_url := source_product_url s;
     ai_generated_content := Some doc;
     enhanced_images := images;
     theme_style := theme_style s; brand_colors := brand_colors s;
     status := "completed";
     generation_progress := 100;
     error_message := None;
     store_seo_title := Some (seo_title content);
     store_seo_description := Some (seo_description content);
     store_seo_keywords := keywords content;
     created_at := created_at s |}.

Definition set_error (message : string) (s : Store) : Store :=
  {| Store_id := Store_id s; user_id := user_id s; store_name := store_name s;
     shopify_store_url := shopify_store_url s;
     source_product_url := source_product_url s;
     ai_generated_content := ai_generated_content s;
     enhanced_images := enhanced_images s;
     theme_style := theme_style s; brand_colors := brand_colors s;
     status := "error";
     generation_progress := generation_progress s;
     error_message := Some message;
     store_seo_title := store_seo_title s;
     store_seo_description := store_seo_description s;
     store_seo_keywords := store_seo_keywords s;
     created_at := created_at s |}.

Definition set_published (url : string) (s : Store) : Store :=
  {| Store_id := Store_id s; user_id := user_id s; store_name := store_name s;
     shopify_store_url := Some url;
     source_product_url := source_product_url s;
     ai_generated_content := ai_generated_content s;
     enhanced_images := enhanced_images s;
     theme_style := theme_style s; brand_colors := brand_colors s;
     status := "published";
     generation_progress := generation_progress s;
     error_message := error_message s;
     store_seo_title := store_seo_title s;
     store_seo_description := store_seo_description s;
     store_seo_keywords := store_seo_keywords s;
     created_at := created_at s |}.

(** The state of the service: the world with its log, the two tables,
    and the rows written by every [commit] so far, oldest first. A
    client that polls the store reads one of these rows. *)
Record svc_state (W : Type) := SvcState {
  io : io_state W;
  stores : gmap Z Store;
  users : gmap Z User;
  committed : list Store
}.
Arguments SvcState {W} io stores users committed.
Arguments io {W} _.
Arguments stores {W} _.
Arguments users {W} _.
Arguments committed {W} _.

Abbreviation Svc W := (ST (svc_state W)).

(** A coroutine of one of the clients, run by the service: it changes
    the world and the log and nothing else. *)
Definition lift_io {W A} (m : IO W A) : Svc W A :=
  λ st, let '(r, io') := m (io st) in
        (r, SvcState io' (stores st) (users st) (committed st)).

(** [self.db.query(Store).filter(Store.id == store_id).first()] *)
Definition query_store {W} (store_id : Z) : Svc W (option Store) :=
  λ st, (Ok (stores st !! store_id), st).

(** [self.db.query(User).filter(User.id == user_id).first()] *)
Definition query_user {W} (user_id : Z) : Svc W (option User) :=
  λ st, (Ok (users st !! user_id), st).

(** [self.db.commit()] with the store object [s] changed in the session.
    Every assignment to the object is followed by a commit before any
    step that can raise, so the object is written as a whole. *)
Definition db_commit {W} (s : Store) : Svc W unit :=
  λ st, (Ok tt, SvcState (io st) (<[Store_id s := s]> (stores st)) (users st)
                  (committed st ++ [s])).

(** [s.replace(' ', '')] *)
Fixpoint remove_spaces (s : string) : string :=
  match s with
  | EmptyString => EmptyString
  | String c rest =>
      if Ascii.eqb c " "%char then remove_spaces rest
      else String c (remove_spaces rest)
  end.

(** [_generate_contact_page_content] *)
Definition _generate_contact_page_content (store : Store) : string :=
  "
        <h2>Get in Touch</h2>
        <p>We're here to help! Contact us with any questions about our products or services.</p>
        
        <h3>Customer Service</h3>
        <p>Email: support@"
  ++ remove_spaces (lower (store_name store)) ++
  ".com</p>
        <p>Response time: Within 24 hours</p>
        
        <h3>Business Hours</h3>
        <p>Monday - Friday: 9:00 AM - 6:00 PM EST</p>
        <p>Saturday - Sunday: 10:00 AM - 4:00 PM EST</p>
        
        <h3>Returns & Exchanges</h3>
        <p>We accept returns within 30 days of purchase. Please contact us to initiate a return.</p>
        ".

(** [_generate_shipping_policy] *)
Definition _generate_shipping_policy : string :=
  "
        <h2>Shipping Information</h2>
        
        <h3>Processing Time</h3>
        <p>All orders are processed within 1-2 business days. Orders are not shipped or delivered on weekends or holidays.</p>
        
        <h3>Shipping Rates & Delivery Estimates</h3>
        <ul>
            <li><strong>Standard Shipping:</strong> 5-7 business days - $5.99</li>
            <li><strong>Express Shipping:</strong> 2-3 business days - $12.99</li>
            <li><strong>Overnight Shipping:</strong> 1 business day - $24.99</li>
        </ul>
        
        <p><strong>Free shipping on orders over $50!</strong></p>
        
        <h3>International Shipping</h3>
        <p>We ship worldwide. International shipping rates and delivery times vary by destination.</p>
        
        <h3>Returns</h3>
        <p>We accept returns within 30 days of delivery. Items must be unused and in original packaging.</p>
        ".

(** [_generate_privacy_policy] *)
Definition _generate_privacy_policy : string :=
  "
        <h2>Privacy Policy</h2>
        
        <h3>Information We Collect</h3>
        <p>We collect information you provide directly to us, such as when you create an account, make a purchase, or contact us.</p>
        
        <h3>How We Use Your Information</h3>
        <ul>
            <li>Process and fulfill your orders</li>
            <li>Send you important updates about your order</li>
            <li>Improve our products and services</li>
            <li>Comply with legal obligations</li>
        </ul>
        
        <h3>Information Sharing</h3>
        <p>We do not sell, trade, or otherwise transfer your personal information to third parties without your consent, except as described in this policy.</p>
        
        <h3>Data Security</h3>
        <p>We implement appropriate security measures to protect your personal information against unauthorized access, alteration, disclosure, or destruction.</p>
        
        <h3>Contact Us</h3>
        <p>If you have any questions about this Privacy Policy, please contact us.</p>
        ".

Definition modern_colors : str_dict :=
  [ ("primary", "#3b82f6"); ("secondary", "#64748b"); ("accent", "#f59e0b");
    ("background", "#ffffff"); ("text", "#1f2937") ].

(** [_generate_default_colors] *)
Definition _generate_default_colors (theme_style : string) : str_dict :=
  if String.eqb theme_style "modern" then modern_colors
  else if String.eqb theme_style "luxury" then
    [ ("primary", "#1f2937"); ("secondary", "#d97706"); ("accent", "#92400e");
      ("background", "#f9fafb"); ("text", "#111827") ]
  else if String.eqb theme_style "minimal" then
    [ ("primary", "#000000"); ("secondary", "#6b7280"); ("accent", "#9ca3af");
      ("background", "#ffffff"); ("text", "#374151") ]
  else modern_colors.

Definition modern_fonts : str_dict :=
  [ ("primary", "Inter, sans-serif"); ("secondary", "System UI, sans-serif") ].

(** [_get_theme_fonts] *)
Definition _get_theme_fonts (theme_style : string) : str_dict :=
  if String.eqb theme_style "modern" then modern_fonts
  else if String.eqb theme_style "luxury" then
    [ ("primary", "Playfair Display, serif"); ("secondary", "Source Sans Pro, sans-serif") ]
  else if String.eqb theme_style "minimal" then
    [ ("primary", "Helvetica Neue, sans-serif"); ("secondary", "Arial, sans-serif") ]
  else modern_fonts.

Definition modern_layout : str_dict :=
  [ ("header_style", "clean"); ("product_layout", "grid"); ("spacing", "comfortable") ].

(** [_get_theme_layout] *)
Definition _get_theme_layout (theme_style : string) : str_dict :=
  if String.eqb theme_style "modern" then modern_layout
  else if String.eqb theme_style "luxury" then
    [ ("header_style", "elegant"); ("product_layout", "showcase"); ("spacing", "spacious") ]
  else if String.eqb theme_style "minimal" then
    [ ("header_style", "simple"); ("product_layout", "minimal"); ("spacing", "tight") ]
  else modern_layout.

(** [", ".join(items)] *)
Fixpoint join_comma (items : list string) : string :=
  match items with
  | [] => EmptyString
  | [x] => x
  | x :: rest => x ++ ", " ++ join_comma rest
  end.

(** [d[key]] on a dictionary of strings *)
Fixpoint dict_item (d : str_dict) (key : string) : outcome string :=
  match d with
  | [] => Raised (Exn KeyError ("'" ++ key ++ "'"))
  | (k, v) :: rest => if String.eqb k key then Ok v else dict_item rest key
  end.

Definition dquote : string := String (ascii_of_nat 34) EmptyString.

(** The text one FAQ item adds to the page. *)
Definition faq_item_html (item : str_dict) : outcome string :=
  question ← dict_item item "question";
  answer ← dict_item item "answer";
  Ok ("
                <div class=" ++ dquote ++ "faq-item" ++ dquote ++ ">
                    <h3>" ++ question ++ "</h3>
                    <p>" ++ answer ++ "</p>
                </div>
                ").

(** The loop [for item in page_content["items"]: html += ...] *)
Fixpoint faq_items_html (html : string) (items : list str_dict) : outcome string :=
  match items with
  | [] => Ok html
  | item :: rest => h ← faq_item_html item; faq_items_html (html ++ h) rest
  end.

(** [_format_page_content] *)
Definition _format_page_content (page_content : page) : outcome string :=
  match page_content with
  | ItemsPage page_title items =>
      faq_items_html ("<h1>" ++ page_title ++ "</h1>") items
  | ContentPage page_title content =>
      Ok ("<h1>" ++ page_title ++ "</h1><div>" ++ content ++ "</div>")
  end.

Definition page_title_of (p : page) : string :=
  match p with
  | ItemsPage t _ => t
  | ContentPage t _ => t
  end.

(** The dictionary [generate_complete_store] returns. *)
Record generation_result := {
  gr_store_id : Z;
  gr_status : string;
  gr_store_data : store_data;
  gr_enhanced_images : nat;
  gr_message : string
}.

(** The dictionary [publish_to_shopify] returns. *)
Record publish_result := {
  pr_store_id : Z;
  pr_status : string;
  pr_shopify_url : option string;
  pr_product_id : Z;
  pr_message : string
}.

Section StoreGenerator.
Context {W : Type} `{World W} `{Library}.

(** [_update_store_progress]; the status text goes to the
    [error_message] column. The changed object is returned. *)
Definition _update_store_progress (store : Store) (progress : Z) (message : string)
    : Svc W Store :=
  let store := set_progress progress message store in
  db_commit store;;
  mret store.

(** [_build_store_structure] *)
Definition _build_store_structure (store : Store) (scraped_product : ScrapedProduct)
    (generated_content : GeneratedContent) (enhanced_images : list EnhancedImage)
    : Svc W store_data :=
  let product_data :=
    {| pd_title := product_title generated_content;
       pd_description := product_description generated_content;
       pd_benefits := product_benefits generated_content;
       pd_original_title := sp_title scraped_product;
       pd_original_description := sp_description scraped_product;
       pd_price := sp_price scraped_product;
       pd_features := sp_features scraped_product;
       pd_specifications := sp_specifications scraped_product;
       pd_category := sp_category scraped_product;
       pd_images_original := sp_images scraped_product;
       pd_images_enhanced := map enhanced_url enhanced_images |} in
  let homepage_data :=
    {| hp_hero := homepage_hero generated_content;
       hp_featured_product :=
         {| fp_title := product_title generated_content;
            fp_description := str_take 200 (product_description generated_content) ++ "...";
            fp_image :=
              match enhanced_images with
              | img :: _ => Some (enhanced_url img)
              | [] =>
                  match sp_images scraped_product with
                  | url :: _ => Some url
                  | [] => None
                  end
              end;
            fp_cta_text := dict_get (homepage_hero generated_content) "cta_text" "Shop Now" |};
       hp_features_section :=
         {| fs_headline :=
              dict_get (homepage_hero generated_content) "features_headline" "Why Choose Us";
            fs_features := take 3 (product_benefits generated_content) |} |} in
  let pages_data :=
    [ ("about", ContentPage "About Us" (about_page generated_content));
      ("faq", ItemsPage "Frequently Asked Questions" (faq_items generated_content));
      ("contact", ContentPage "Contact Us" (_generate_contact_page_content store));
      ("shipping", ContentPage "Shipping & Returns" _generate_shipping_policy);
      ("privacy", ContentPage "Privacy Policy" _generate_privacy_policy) ] in
  let seo_data :=
    {| sd_title := seo_title generated_content;
       sd_description := seo_description generated_content;
       sd_keywords := keywords generated_content;
       og_image :=
         match enhanced_images with
         | img :: _ => Some (enhanced_url img)
         | [] => None
         end |} in
  let theme_data :=
    {| th_style := theme_style store;
       th_colors :=
         match brand_colors store with
         | [] => _generate_default_colors (theme_style store)
         | colors => colors
         end;
       th_fonts := _get_theme_fonts (theme_style store);
       th_layout := _get_theme_layout (theme_style store) |} in
  match created_at store with
  | None => raise (Exn AttributeError "'NoneType' object has no attribute 'isoformat'")
  | Some t =>
      mret {| product := product_data;
              homepage := homepage_data;
              pages := pages_data;
              seo := seo_data;
              theme := theme_data;
              generated_at := isoformat t;
              doc_store_name := store_name store;
              source_url := source_product_url store |}
  end.

Definition scrape_product (url : string) : IO W ScrapedProduct :=
  call (world_scrape url) (EvScrape url).

Definition store_not_found (store_id : Z) : exn :=
  Exn PlainException ("Store " ++ pretty store_id ++ " not found").

(** [generate_complete_store] *)
Definition generate_complete_store (store_id : Z) (product_url : string)
    : Svc W generation_result :=
  try_except
    (found ← query_store store_id;
     match found with
     | None => raise (store_not_found store_id)
     | Some store =>
         store ← _update_store_progress store 10 "Scraping product data...";
         scraped_product ← lift_io (scrape_product product_url);
         store ← _update_store_progress store 25 "Generating AI content...";
         let product_info :=
           {| title := sp_title scraped_product;
              description := sp_description scraped_product;
              features := sp_features scraped_product;
              specifications := sp_specifications scraped_product;
              category := sp_category scraped_product;
              price_range := sp_price scraped_product |} in
         generated_content ← lift_io (generate_complete_content product_info);
         store ← _update_store_progress store 50 "Enhancing product images...";
         enhanced_images ←
           match sp_images scraped_product with
           | [] => mret []
           | images => lift_io (enhance_product_images images (theme_style store) true)
           end;
         store ← _update_store_progress store 75 "Building store structure...";
         store_data ← _build_store_structure store scraped_product
                        generated_content enhanced_images;
         store ← _update_store_progress store 90 "Finalizing store...";
         db_commit (set_completed store_data enhanced_images generated_content store);;
         mret {| gr_store_id := store_id;
                 gr_status := "completed";
                 gr_store_data := store_data;
                 gr_enhanced_images := length enhanced_images;
                 gr_message := "Store generated successfully" |}
     end)
    (λ e,
     found ← query_store store_id;
     match found with
     | Some store => db_commit (set_error (str e) store)
     | None => mret tt
     end;;
     raise e).

Definition create_product (f : product_fields) : IO W Z :=
  call (world_create_product f) (EvCreateProduct f).

Definition create_page (f : page_fields) : IO W Z :=
  call (world_create_page f) (EvCreatePage f).

(** The loop of [_create_store_pages] over the items of the [pages]
    dictionary. *)
Fixpoint create_pages (pages_data : list (string * page)) : Svc W unit :=
  match pages_data with
  | [] => mret tt
  | (page_key, page_content) :: rest =>
      (if bool_decide (page_key ∈ ["about"; "faq"; "contact"; "shipping"; "privacy"])
       then
         body_html ← lift_outcome (_format_page_content page_content);
         lift_io (create_page {| pg_title := page_title_of page_content;
                                 pg_body_html := body_html;
                                 pg_published := true |});;
         mret tt
       else mret tt);;
      create_pages rest
  end.

(** [_create_store_pages] *)
Definition _create_store_pages (store : Store) : Svc W unit :=
  create_pages (from_option pages [] (ai_generated_content store)).

(** [publish_to_shopify]. The store document has no [category] key at
    its top level, so the product type is always the default. *)
Definition publish_to_shopify (store_id : Z) : Svc W publish_result :=
  try_except
    (found ← query_store store_id;
     match found with
     | None => raise (store_not_found store_id)
     | Some store =>
         found_user ← query_user (user_id store);
         match found_user with
         | None => raise (Exn PlainException "User not found")
         | Some user =>
             let product_data := product <$> ai_generated_content store in
             shopify_product ← lift_io (create_product
               {| pf_title := from_option pd_title (store_name store) product_data;
                  pf_body_html := from_option pd_description EmptyString product_data;
                  pf_vendor :=
                    match company user with
                    | Some c => if String.eqb c EmptyString then "StoreForge" else c
                    | None => "StoreForge"
                    end;
                  pf_product_type := "General";
                  pf_tags := join_comma (store_seo_keywords store);
                  pf_images :=
                    map enhanced_url
                      (filter (λ img, enhanced_url img ≠ EmptyString)
                              (enhanced_images store)) |});
             _create_store_pages store;;
             let url := "https://" ++ shopify_shop_domain user in
             db_commit (set_published url store);;
             mret {| pr_store_id := store_id;
                     pr_status := "published";
                     pr_shopify_url := Some url;
                     pr_product_id := shopify_product;
                     pr_message := "Store published successfully" |}
         end
     end)
    (λ e, raise e).

End StoreGenerator.

(** ** The publish route of [app/api/stores.py] *)

(** A task added to the [BackgroundTasks] of a request. *)
Inductive background_task :=
  | PublishStoreTask (store_id : Z).

(** What a route gives back: its return value, or an [HTTPException]. *)
Inductive http_response (A : Type) :=
  | Response (body : A)
  | HTTPException (status_code : Z) (detail : string).
Arguments Response {A} body.
Arguments HTTPException {A} status_code detail.

Section Api.
Context {W : Type} `{World W} `{Library}.

(** [db.query(Store).filter(Store.id == store_id,
    Store.user_id == current_user.id).first()] *)
Definition query_store_of_user (store_id : Z) (current_user : User)
    (db : svc_state W) : option Store :=
  match stores db !! store_id with
  | Some store =>
      if (user_id store =? User_id current_user)%Z then Some store else None
  | None => None
  end.

(** [publish_store]: the response, and the tasks it added to the
    request's [background_tasks]. The route writes nothing itself. *)
Definition publish_store (store_id : Z) (current_user : User)
    (db : svc_state W) : http_response (string * Z) * list background_task :=
  match query_store_of_user store_id current_user db with
  | None => (HTTPException 404 "Store not found", [])
  | Some store =>
      if negb (String.eqb (status store) "completed") then
        (HTTPException 400 "Store must be completed before publishing", [])
      else
        (Response ("Publishing started", Store_id store),
         [PublishStoreTask (Store_id store)])
  end.

(** [_publish_store_background]: [try: ... except Exception: pass] *)
Definition _publish_store_background (store_id : Z) : Svc W unit :=
  try_except (publish_to_shopify store_id;; mret tt) (λ _, mret tt).

(** The framework runs the tasks that were added, once the response
    is out. *)
Fixpoint run_background_tasks (tasks : list background_task)
    (db : svc_state W) : svc_state W :=
  match tasks with
  | [] => db
  | PublishStoreTask store_id :: rest =>
      run_background_tasks rest (_publish_store_background store_id db).2
  end.

(** A whole publish request: the route, then its background tasks. *)
Definition serve_publish (store_id : Z) (current_user : User)
    (db : svc_state W) : http_response (string * Z) * svc_state W :=
  let '(response, tasks) := publish_store store_id current_user db in
  (response, run_background_tasks tasks db).

End Api.

(** ** A scripted world

    A world that answers the calls from a list of prepared replies, in
    order; it is used to run the code on concrete scenarios. A reply of
    the wrong kind, or none left, is a transport error. *)

Inductive reply :=
  | RBytes (b : bytes)
  | RJob (generation_id : string)
  | RGeneration (g : generation)
  | RChat (content : option string)
  | RProduct (p : ScrapedProduct)
  | RId (n : Z)
  | RError (message : string).

Record script := Script { replies : list reply; clock : Z }.

Definition transport_error : exn := Exn TransportError "connection failed".

(** Take the next reply and read it with [decode]. *)
Definition next_reply {A} (decode : reply → option A) (w : script)
    : outcome A * script :=
  match replies w with
  | [] => (Raised transport_error, w)
  | r :: rest =>
      (match r with
       | RError message => Raised (Exn TransportError message)
       | _ => match decode r with
              | Some a => Ok a
              | None => Raised transport_error
              end
       end, Script rest (clock w))
  end.

#[export] Instance script_world : World script := {|
  world_download _ := next_reply (λ r, match r with RBytes b => Some b | _ => None end);
  world_submit _ := next_reply (λ r, match r with RJob i => Some i | _ => None end);
  world_poll _ := next_reply (λ r, match r with RGeneration g => Some g | _ => None end);
  world_sleep seconds w := Script (replies w) (clock w + seconds);
  world_time w := clock w;
  world_chat _ _ := next_reply (λ r, match r with RChat c => Some c | _ => None end);
  world_scrape _ := next_reply (λ r, match r with RProduct p => Some p | _ => None end);
  world_create_product _ := next_reply (λ r, match r with RId n => Some n | _ => None end);
  world_create_page _ := next_reply (λ r, match r with RId n => Some n | _ => None end)
|}.

(** Stand-ins for the library functions on the scenarios: a decoder that
    knows two JSON texts, a digest that prints the length of the data,
    timestamps printed as numbers. *)
#[export] Instance sample_library : Library := {|
  json_loads text :=
    if String.eqb text "[]" then Some (JArr [])
    else if String.eqb text "{}" then Some (JObj [])
    else None;
  md5_hexdigest data := pretty (length data);
  isoformat t := pretty t;
  AWS_S3_BUCKET := "test-bucket"
|}.

(** The initial state of a coroutine in the scripted world. *)
Definition start (rs : list reply) : io_state script :=
  IoState (Script rs 0) [].

(** ** Observations on a run *)

(** The progress values of the rows committed for one store. *)
Definition progress_values (store_id : Z) (rows : list Store) : list Z :=
  map generation_progress (filter (λ s, Store_id s = store_id) rows).

(** A list of numbers that never decreases. *)
Fixpoint non_decreasing (l : list Z) : Prop :=
  match l with
  | [] => True
  | x :: rest =>
      match rest with
      | [] => True
      | y :: _ => (x ≤ y)%Z ∧ non_decreasing rest
      end
  end.

(** The log of the polls that found the job still running, each with
    the sleep that follows it. *)
Definition pending_polls (generation_id : string) (gs : list generation) : list event :=
  flat_map (λ g, [EvPoll generation_id (Ok g); EvSleep 10]) gs.

(** A job that is neither complete nor failed. *)
Definition still_running (g : generation) : Prop :=
  gen_status g ≠ "COMPLETE" ∧ gen_status g ≠ "FAILED".

(** [each_alone task urls st imgs st']: from the state [st], the task
    of every URL in turn returned its own image, and nothing but the
    URL and the replies to its own calls went into it. *)
Inductive each_alone {W} (task : string → IO W EnhancedImage)
    : list string → io_state W → list EnhancedImage → io_state W → Prop :=
  | each_alone_nil st : each_alone task [] st [] st
  | each_alone_cons url urls st img st1 imgs st2 :
      task url st = (Ok img, st1) →
      each_alone task urls st1 imgs st2 →
      each_alone task (url :: urls) st (img :: imgs) st2.

(** The two tags an image can carry, with what the fallback tag means
    for its URL. *)
Definition well_tagged (img : EnhancedImage) : Prop :=
  enhancement_type img = "full_enhancement"
  ∨ (enhancement_type img = "fallback_original"
     ∧ enhanced_url img = original_url img).

(** What the loop makes of the reply [last] that ended it: the result
    [r] it leaves with. *)
Definition ends_with (last : outcome generation) (r : outcome string) : Prop :=
  match last with
  | Raised e => r = Raised e
  | Ok g =>
      (gen_status g = "COMPLETE" ∧
         ∃ url rest, generated_images g = url :: rest ∧ r = Ok url)
      ∨ (gen_status g = "COMPLETE" ∧ generated_images g = [] ∧
         r = Raised (Exn PlainException "No images generated"))
      ∨ (gen_status g = "FAILED" ∧
         r = Raised (Exn PlainException "Image generation failed"))
  end.



(** The number of polls in a log. *)
Definition polls (l : list event) : nat :=
  length (List.filter (λ e, match e with EvPoll _ _ => true | _ => false end) l).

(** ** Scenarios *)

Definition source_image : bytes := [Byte.x01; Byte.x02; Byte.x03].


Definition complete (url : string) : generation :=
  {| gen_status := "COMPLETE"; generated_images := [url] |}.


Definition two_urls : list string :=
  [ "https://shop.example/a.jpg"; "https://shop.example/b.jpg" ].

Definition six_urls : list string :=
  [ "https://shop.example/1.jpg"; "https://shop.example/2.jpg";
    "https://shop.example/3.jpg"; "https://shop.example/4.jpg";
    "https://shop.example/5.jpg"; "https://shop.example/6.jpg" ].

Definition sample_info : ProductInfo :=
  {| title := "Trail Lamp";
     description := "A small lamp for night walks.";
     features := ["Light"; "Waterproof"; "USB charging"];
     specifications := [("weight", "80 g")];
     category := "Outdoor";
     price_range := Some "$19" |}.

(** Every generation call answers with a text that is not JSON. *)
Definition six_texts : list reply :=
  replicate 6 (RChat (Some "Sorry, here is some prose instead.")).

(** The five progress updates of a run, in the order they are made. *)
Definition progress_messages : list (Z * string) :=
  [ (10, "Scraping product data...");
    (25, "Generating AI content...");
    (50, "Enhancing product images...");
    (75, "Building store structure...");
    (90, "Finalizing store...") ].

(** The rows these updates commit, starting from the row [store]. *)
Fixpoint checkpoints (steps : list (Z * string)) (store : Store) : list Store :=
  match steps with
  | [] => []
  | (progress, message) :: rest =>
      let row := set_progress progress message store in
      row :: checkpoints rest row
  end.

Definition sample_store : Store :=
  {| Store_id := 7; user_id := 1; store_name := "Night Walk Shop";
     shopify_store_url := None;
     source_product_url := "https://www.example.com/item/42";
     ai_generated_content := None;
     enhanced_images := [];
     theme_style := "modern"; brand_colors := [];
     status := "generating"; generation_progress := 0;
     error_message := None;
     store_seo_title := None; store_seo_description := None;
     store_seo_keywords := [];
     created_at := Some 1700000000 |}.

Definition sample_user : User :=
  {| User_id := 1; shopify_shop_domain := "test-shop.myshopify.com";
     shopify_access_token := "test-token"; company := None |}.

Definition sample_product : ScrapedProduct :=
  {| sp_title := "Trail Lamp";
     sp_description := "A small lamp for night walks.";
     sp_price := Some "$19";
     sp_images := two_urls;
     sp_features := ["Light"; "Waterproof"; "USB charging"];
     sp_specifications := [("weight", "80 g")];
     sp_category := "Outdoor" |}.

Definition sample_content : GeneratedContent :=
  {| product_title := "Trail Lamp";
     product_description := "A small lamp for night walks.";
     seo_title := "Trail Lamp - Best Quality Online Store";
     seo_description := "Shop Trail Lamp with fast shipping and great prices.";
     homepage_hero := [("headline", "Premium Outdoor Collection")];
     about_page := "About the shop.";
     faq_items := [];
     product_benefits := ["Light"; "Waterproof"; "USB charging"];
     keywords := ["trail lamp"] |}.

(** A service in the scripted world, with the given rows in its tables. *)
Definition service_start (rs : list reply) (rows : list Store) (people : list User)
    : svc_state script :=
  SvcState (start rs)
           (list_to_map (map (λ s, (Store_id s, s)) rows))
           (list_to_map (map (λ u, (User_id u, u)) people))
           [].

Definition product_url : string := "https://www.example.com/item/42".

(** A run in which every generation reply is prose and both image
    downloads fail, followed by the replies of the commerce platform
    to one product and five pages. *)
Definition degraded_run : list reply :=
  [ RProduct sample_product ] ++ six_texts
  ++ [ RError "no route to host"; RError "no route to host" ]
  ++ [ RId 101; RId 201; RId 202; RId 203; RId 204; RId 205 ].

(** ** Further functions of the same files *)

(** [s.replace(c, '')] for a one-character [c] *)
Fixpoint remove_char (c : ascii) (s : string) : string :=
  match s with
  | EmptyString => EmptyString
  | String c' rest =>
      if Ascii.eqb c' c then remove_char c rest
      else String c' (remove_char c rest)
  end.

(** The characters of a string. *)
Fixpoint chars (s : string) : list ascii :=
  match s with
  | EmptyString => []
  | String c rest => c :: chars rest
  end.

Definition is_upper (c : ascii) : Prop :=
  (65 ≤ nat_of_ascii c ≤ 90)%nat.

Section BrandedBackground.
Context {W : Type} `{World W} `{Library}.

Definition background_prompt (primary_color secondary_color style : string) : string :=
  let modern :=
    "modern abstract background, geometric shapes, gradient from "
    ++ primary_color ++ " to " ++ secondary_color in
  if String.eqb style "modern" then modern
  else if String.eqb style "luxury" then
    "luxury background, elegant texture, premium feel, "
    ++ primary_color ++ " and " ++ secondary_color ++ " color scheme"
  else if String.eqb style "minimal" then
    "minimal clean background, simple gradient, "
    ++ primary_color ++ " to " ++ secondary_color
  else if String.eqb style "professional" then
    "professional business background, corporate style, "
    ++ primary_color ++ " and " ++ secondary_color
  else modern.

Definition branded_background_payload (primary_color secondary_color style : string)
    : payload :=
  {| prompt := background_prompt primary_color secondary_color style
               ++ ", high quality, clean, professional";
     negative_prompt := "busy, cluttered, text, logos, watermarks, people, objects";
     guidance_scale := 7;
     presetStyle := "NONE";
     init_image := None;
     init_strength_pct := None |}.

(** The URL returned when the generation fails. *)
Definition placeholder_url (primary_color secondary_color : string) : string :=
  "https://via.placeholder.com/1024x1024/"
  ++ remove_char "#"%char primary_color ++ "/"
  ++ remove_char "#"%char secondary_color.

(** [generate_branded_background] *)
Definition generate_branded_background (brand_colors : str_dict) (style : string)
    : IO W string :=
  let primary_color := dict_get brand_colors "primary" "#ffffff" in
  let secondary_color := dict_get brand_colors "secondary" "#f8f9fa" in
  let p := branded_background_payload primary_color secondary_color style in
  try_except
    (generation_id ← call (world_submit p) (EvSubmit p);
     _poll_generation_completion generation_id)
    (λ _, mret (placeholder_url primary_color secondary_color)).

End BrandedBackground.

(** The dictionary [ShopifyClient.create_product] reads, every key of
    which may be missing. *)
Record product_dict := {
  d_title : option string;
  d_body_html : option string;
  d_vendor : option string;
  d_product_type : option string;
  d_tags : option string;
  d_price : option string;
  d_images : option (list string)
}.

Record variant := {
  v_price : string;
  v_inventory_quantity : Z;
  v_inventory_management : string
}.

(** The [product] object [create_product] posts. *)
Record product_payload := {
  pp_title : option string;
  pp_body_html : string;
  pp_vendor : string;
  pp_product_type : string;
  pp_tags : string;
  pp_published : bool;
  pp_variants : list variant;
  pp_images : option (list string)
}.

(** The payload built by [ShopifyClient.create_product]; the [images]
    key is added only for a list that is not empty. *)
Definition create_product_payload (product_data : product_dict) : product_payload :=
  {| pp_title := d_title product_data;
     pp_body_html := default EmptyString (d_body_html product_data);
     pp_vendor := default "StoreForge" (d_vendor product_data);
     pp_product_type := default "General" (d_product_type product_data);
     pp_tags := default EmptyString (d_tags product_data);
     pp_published := true;
     pp_variants :=
       [ {| v_price := default "29.99" (d_price product_data);
            v_inventory_quantity := 100;
            v_inventory_management := "shopify" |} ];
     pp_images :=
       match d_images product_data with
       | Some (img :: imgs) => Some (img :: imgs)
       | _ => None
       end |}.

(** The dictionary [publish_to_shopify] passes: six keys, no price. *)
Definition product_dict_of (f : product_fields) : product_dict :=
  {| d_title := Some (pf_title f);
     d_body_html := Some (pf_body_html f);
     d_vendor := Some (pf_vendor f);
     d_product_type := Some (pf_product_type f);
     d_tags := Some (pf_tags f);
     d_price := None;
     d_images := Some (pf_images f) |}.

Section MoreRoutes.
Context {W : Type} `{World W} `{Library}.

(** [get_store] *)
Definition get_store (store_id : Z) (current_user : User) (db : svc_state W)
    : http_response Store :=
  match query_store_of_user store_id current_user db with
  | None => HTTPException 404 "Store not found"
  | Some store => Response store
  end.

(** [delete_store]: [db.delete(store)] and [db.commit()] *)
Definition delete_store (store_id : Z) (current_user : User) (db : svc_state W)
    : http_response string * svc_state W :=
  match query_store_of_user store_id current_user db with
  | None => (HTTPException 404 "Store not found", db)
  | Some store =>
      (Response "Store deleted successfully",
       SvcState (io db) (delete (Store_id store) (stores db)) (users db)
                (committed db))
  end.

(** [_generate_store_background]: [try: ... except Exception: pass] *)
Definition _generate_store_background (store_id : Z) (product_url : string)
    : Svc W unit :=
  try_except (generate_complete_store store_id product_url;; mret tt)
             (λ _, mret tt).

End MoreRoutes.

(** The total of the sleeps in a log, in seconds. *)
Definition slept (l : list event) : Z :=
  foldr (λ e acc, match e with EvSleep n => n + acc | _ => acc end) 0 l.

(** A world in which every call succeeds at once: jobs are complete at
    their first poll. Its state counts the calls. *)
#[export] Instance obliging_world : World nat := {|
  world_download _ n := (Ok [Byte.x2a], S n);
  world_submit _ n := (Ok "job", S n);
  world_poll _ n := (Ok (complete "https://cdn.example/out.jpg"), S n);
  world_sleep _ n := n;
  world_time n := Z.of_nat n;
  world_chat _ _ n := (Ok (Some "{}"), S n);
  world_scrape _ n := (Ok sample_product, S n);
  world_create_product _ n := (Ok (Z.of_nat n), S n);
  world_create_page _ n := (Ok (Z.of_nat n), S n)
|}.

(** The titles of the pages a log shows as created, in order. *)
Definition created_pages (l : list event) : list string :=
  omap (λ e, match e with
             | EvCreatePage f (Ok _) => Some (pg_title f)
             | _ => None
             end) l.

(** An FAQ item with both of its keys. *)
Definition has_question_and_answer (item : str_dict) : Prop :=
  (∃ q, (("question", q) : string * string) ∈ item)
  ∧ ∃ a, (("answer", a) : string * string) ∈ item.

(** The sample store once completed, with the document assembled from
    the sample product and content. *)
Definition ready_store : Store :=
  {| Store_id := 7; user_id := 1; store_name := "Night Walk Shop";
     shopify_store_url := None;
     source_product_url := "https://www.example.com/item/42";
     ai_generated_content :=
       match (_build_store_structure sample_store sample_product
                sample_content []
                (service_start [] [sample_store] [sample_user])).1 with
       | Ok doc => Some doc
       | Raised _ => None
       end;
     enhanced_images := [];
     theme_style := "modern"; brand_colors := [];
     status := "completed"; generation_progress := 100;
     error_message := None;
     store_seo_title := Some "Trail Lamp - Best Quality Online Store";
     store_seo_description := None;
     store_seo_keywords := ["trail lamp"];
     created_at := Some 1700000000 |}.

(** A service in the obliging world. *)
Definition obliging_service (rows : list Store) (people : list User)
    : svc_state nat :=
  SvcState (IoState 0%nat [])
           (list_to_map (map (λ s, (Store_id s, s)) rows))
           (list_to_map (map (λ u, (User_id u, u)) people))
           [].

(** * Properties *)

(** ** The monad *)

Ltac unfold_monad :=
  unfold mbind, mret, fmap, ST_bind, ST_ret, ST_fmap, st_bind, st_ret,
         raise, try_except, lift_outcome in *.

(** ** The polling loop *)

Section PollProperties.
Context {W : Type} `{World W} `{Library}.

Lemma poll_loop_spec (generation_id : string) (n : nat) (st : io_state W) :
  ∃ (pending : list generation) (tail : list event)
    (r : outcome string) (st' : io_state W),
    poll_loop generation_id n st = (r, st') ∧
    Forall still_running pending ∧
    log st' = (log st ++ pending_polls generation_id pending ++ tail)%list ∧
    ((length pending = n ∧ tail = [] ∧
      r = Raised (Exn PlainException "Generation timeout"))
     ∨ ((length pending < n)%nat ∧
        ∃ last, tail = [EvPoll generation_id last] ∧ ends_with last r)).
Proof.
  revert st. induction n as [|n IH]; intros st.
  - exists [], [], (Raised (Exn PlainException "Generation timeout")), st.
    simpl. rewrite app_nil_r. split_and!; auto.
  - simpl. unfold_monad. unfold call.
    destruct (world_poll generation_id (world st)) as [[g|e] w'] eqn:Hpoll.
    + unfold poll_step.
      destruct (String.eqb (gen_status g) "COMPLETE") eqn:Hc.
      * apply String.eqb_eq in Hc.
        destruct (generated_images g) as [|url rest] eqn:Himgs.
        -- eexists [], _, _, _. split; [reflexivity|].
           split; [constructor|]. split; [reflexivity|].
           right. split; [simpl; lia|].
           eexists. split; [reflexivity|]. simpl. right. left. auto.
        -- eexists [], _, _, _. split; [reflexivity|].
           split; [constructor|]. split; [reflexivity|].
           right. split; [simpl; lia|].
           eexists. split; [reflexivity|]. simpl. left. eauto.
      * apply String.eqb_neq in Hc.
        destruct (String.eqb (gen_status g) "FAILED") eqn:Hf.
        -- apply String.eqb_eq in Hf.
           eexists [], _, _, _. split; [reflexivity|].
           split; [constructor|]. split; [reflexivity|].
           right. split; [simpl; lia|].
           eexists. split; [reflexivity|]. simpl. right. right. auto.
        -- apply String.eqb_neq in Hf.
           unfold asyncio_sleep. simpl.
           match goal with
           | |- context [poll_loop generation_id n ?s] =>
               destruct (IH s) as (pending & tail & r & st' & Hrun & Hp & Hlog & Hend)
           end.
           exists (g :: pending), tail, r, st'.
           split; [exact Hrun|].
           split; [constructor; [split; assumption|assumption]|].
           split.
           { rewrite Hlog. simpl. rewrite <- !app_assoc. reflexivity. }
           destruct Hend as [(Hlen & Ht & Hr)|(Hlen & Hlast)].
           ++ left. simpl. auto.
           ++ right. split; [simpl; lia|exact Hlast].
    + eexists [], _, _, _. split; [reflexivity|].
      split; [constructor|]. split; [reflexivity|].
      right. split; [simpl; lia|].
      eexists. split; [reflexivity|]. simpl. reflexivity.
Qed.

End PollProperties.

(** ** The image enhancer *)

Section EnhancerProperties.
Context {W : Type} `{World W} `{Library}.

Lemma call_log {A} (op : W → outcome A * W) (ev : outcome A → event)
    (st st' : io_state W) (r : outcome A) :
  call op ev st = (r, st') → log st' = (log st ++ [ev r])%list.
Proof.
  unfold call. destruct (op (world st)) as [r0 w']. intros [= <- <-]. reflexivity.
Qed.

Lemma poll_log (generation_id : string) (st st' : io_state W) (r : outcome string) :
  _poll_generation_completion generation_id st = (r, st') →
  log st `prefix_of` log st'.
Proof.
  intros Hrun.
  destruct (poll_loop_spec generation_id max_attempts st)
    as (pending & tail & r0 & st0 & Hrun0 & _ & Hlog & _).
  unfold _poll_generation_completion in Hrun.
  rewrite Hrun in Hrun0. injection Hrun0 as <- <-.
  rewrite Hlog. eexists. reflexivity.
Qed.

(** A generation always starts with its submission, which is logged. *)
Lemma run_generation_log (p : payload) (st st' : io_state W) (r : outcome bytes) :
  run_generation p st = (r, st') →
  ∃ r0 rest, log st' = (log st ++ EvSubmit p r0 :: rest)%list.
Proof.
  unfold run_generation. unfold_monad.
  destruct (call (world_submit p) (EvSubmit p) st) as [[generation_id|e] st1] eqn:Hsub.
  - apply call_log in Hsub.
    destruct (_poll_generation_completion generation_id st1) as [[url|e] st2] eqn:Hpoll.
    + apply poll_log in Hpoll as [l2 Hl2].
      unfold _download_image.
      destruct (call (world_download url) (EvDownload url) st2) as [r3 st3] eqn:Hd.
      apply call_log in Hd. intros [= <- <-].
      exists (Ok generation_id), (l2 ++ [EvDownload url r3])%list.
      rewrite Hd, Hl2, Hsub. rewrite <- !app_assoc. reflexivity.
    + apply poll_log in Hpoll as [l2 Hl2]. intros [= <- <-].
      exists (Ok generation_id), l2.
      rewrite Hl2, Hsub. rewrite <- !app_assoc. reflexivity.
  - apply call_log in Hsub. intros [= <- <-].
    exists (Raised e), []. exact Hsub.
Qed.

(** A pass never raises: it gives the new image, or on any failure
    the image it was given. *)
Lemma pass_spec (p : payload) (image_data : bytes) (st : io_state W) :
  ∃ out st' r0 rest,
    try_except (run_generation p) (λ _, mret image_data) st = (Ok out, st') ∧
    log st' = (log st ++ EvSubmit p r0 :: rest)%list ∧
    (∀ e, (run_generation p st).1 = Raised e → out = image_data).
Proof.
  unfold try_except.
  destruct (run_generation p st) as [[out|e] st'] eqn:Hrun.
  - destruct (run_generation_log _ _ _ _ Hrun) as (r0 & rest & Hlog).
    exists out, st', r0, rest. split_and!; [reflexivity|exact Hlog|].
    intros e. simpl. discriminate.
  - destruct (run_generation_log _ _ _ _ Hrun) as (r0 & rest & Hlog).
    exists image_data, st', r0, rest. split_and!; [reflexivity|exact Hlog|].
    intros _ _. reflexivity.
Qed.

Lemma quality_spec (image_data : bytes) (st : io_state W) :
  ∃ out st' r0 rest,
    _enhance_image_quality image_data st = (Ok out, st') ∧
    log st' = (log st ++ EvSubmit (quality_payload image_data) r0 :: rest)%list.
Proof.
  destruct (pass_spec (quality_payload image_data) image_data st)
    as (out & st' & r0 & rest & Hrun & Hlog & _). eauto 6.
Qed.

Lemma background_spec (image_data : bytes) (st : io_state W) :
  ∃ out st' r0 rest,
    _remove_background image_data st = (Ok out, st') ∧
    log st' = (log st ++ EvSubmit (background_payload image_data) r0 :: rest)%list.
Proof.
  destruct (pass_spec (background_payload image_data) image_data st)
    as (out & st' & r0 & rest & Hrun & Hlog & _). eauto 6.
Qed.

Lemma style_spec (image_data : bytes) (style : string) (st : io_state W) :
  ∃ out st' r0 rest,
    _apply_style_enhancement image_data style st = (Ok out, st') ∧
    log st' = (log st ++ EvSubmit (style_payload image_data style) r0 :: rest)%list.
Proof.
  destruct (pass_spec (style_payload image_data style) image_data st)
    as (out & st' & r0 & rest & Hrun & Hlog & _). eauto 6.
Qed.

Ltac use_quality i s r l L :=
  match goal with
  | |- context [_enhance_image_quality ?d ?st] =>
      destruct (quality_spec d st) as (i & s & r & l & -> & L)
  end.
Ltac use_background i s r l L :=
  match goal with
  | |- context [_remove_background ?d ?st] =>
      destruct (background_spec d st) as (i & s & r & l & -> & L)
  end.
Ltac use_style i s r l L :=
  match goal with
  | |- context [_apply_style_enhancement ?d ?y ?st] =>
      destruct (style_spec d y st) as (i & s & r & l & -> & L)
  end.
Ltac finish_single :=
  unfold _upload_enhanced_image; unfold_monad;
  eexists _, _; split; [reflexivity|]; simpl;
  split; [reflexivity|]; split; [reflexivity|]; split.

(** What [enhance_single_image] returns, for every world. *)
Lemma enhance_single_image_spec (image_url style : string)
    (enhance_quality remove_background : bool) (st : io_state W) :
  ∃ img st',
    enhance_single_image image_url style enhance_quality remove_background st
      = (Ok img, st') ∧
    original_url img = image_url ∧
    match (world_download image_url (world st)).1 with
    | Ok _ =>
        enhancement_type img = "full_enhancement" ∧
        (∃ input r, EvSubmit (style_payload input style) r ∈ log st') ∧
        (remove_background = true →
         ∃ input r, EvSubmit (background_payload input) r ∈ log st')
    | Raised _ =>
        enhancement_type img = "fallback_original" ∧
        enhanced_url img = image_url
    end.
Proof.
  unfold enhance_single_image, time_time. unfold_monad.
  unfold _download_image, call.
  destruct (world_download image_url (world st)) as [[original|e] w0] eqn:Hd; simpl.
  2:{ eexists _, _. split; [reflexivity|]. simpl. auto. }
  destruct enhance_quality, remove_background.
  - use_quality i1 s1 r1 l1 L1. use_background i2 s2 r2 l2 L2.
    use_style i3 s3 r3 l3 L3. finish_single.
    + exists i2, r3. rewrite L3. set_solver.
    + intros _. exists i1, r2. rewrite L3, L2. set_solver.
  - use_quality i1 s1 r1 l1 L1. use_style i3 s3 r3 l3 L3. finish_single.
    + exists i1, r3. rewrite L3. set_solver.
    + discriminate.
  - use_background i2 s2 r2 l2 L2. use_style i3 s3 r3 l3 L3. finish_single.
    + exists i2, r3. rewrite L3. set_solver.
    + intros _. exists original, r2. rewrite L3, L2. set_solver.
  - use_style i3 s3 r3 l3 L3. finish_single.
    + exists original, r3. rewrite L3. set_solver.
    + discriminate.
Qed.

Lemma gather_all_total (task : string → IO W EnhancedImage)
    (urls : list string) (st : io_state W) :
  (∀ url s, ∃ img s', task url s = (Ok img, s')) →
  ∃ imgs st',
    gather_all (map task urls) st = (map Ok imgs, st') ∧
    each_alone task urls st imgs st'.
Proof.
  intros Htotal. revert st.
  induction urls as [|url urls IH]; intros st; simpl.
  - exists [], st. split; [reflexivity|constructor].
  - destruct (Htotal url st) as (img & st1 & Hrun). rewrite Hrun.
    destruct (IH st1) as (imgs & st2 & Hrest & Heach). rewrite Hrest.
    exists (img :: imgs), st2. split; [reflexivity|].
    econstructor; eassumption.
Qed.

Lemma omap_as_enhanced_image (imgs : list EnhancedImage) :
  omap as_enhanced_image (map Ok imgs) = imgs.
Proof.
  induction imgs as [|img imgs IH]; [reflexivity|].
  change (img :: omap as_enhanced_image (map Ok imgs) = img :: imgs).
  f_equal. exact IH.
Qed.

(** The batch returns the images of the first five URLs, each from
    its own run. *)
Lemma enhance_product_images_spec (image_urls : list string) (style : string)
    (enhance_quality : bool) (st : io_state W) :
  ∃ imgs st',
    enhance_product_images image_urls style enhance_quality st = (Ok imgs, st') ∧
    each_alone (λ url, enhance_single_image url style enhance_quality false)
               (take 5 image_urls) st imgs st'.
Proof.
  unfold enhance_product_images, gather_return_exceptions. unfold_monad.
  destruct (gather_all_total
              (λ url, enhance_single_image url style enhance_quality false)
              (take 5 image_urls) st) as (imgs & st' & Hrun & Heach).
  { intros url s.
    destruct (enhance_single_image_spec url style enhance_quality false s)
      as (img & s' & Hrun & _). eauto. }
  rewrite Hrun. rewrite omap_as_enhanced_image. eauto.
Qed.

Lemma each_alone_length (task : string → IO W EnhancedImage) urls st imgs st' :
  each_alone task urls st imgs st' → length imgs = length urls.
Proof. induction 1; simpl; congruence. Qed.

Lemma each_alone_single (style : string) (enhance_quality : bool)
    urls st imgs st' :
  each_alone (λ url, enhance_single_image url style enhance_quality false)
             urls st imgs st' →
  map original_url imgs = urls ∧ Forall well_tagged imgs.
Proof.
  induction 1 as [|url urls st img st1 imgs st2 Hrun _ [IHm IHt]]; simpl.
  - split; [reflexivity|constructor].
  - destruct (enhance_single_image_spec url style enhance_quality false st)
      as (img' & s' & Hrun' & Hurl & Htag).
    rewrite Hrun in Hrun'. injection Hrun' as <- <-.
    split; [congruence|]. constructor; [|exact IHt].
    unfold well_tagged.
    destruct ((world_download url (world st)).1).
    + left. tauto.
    + right. destruct Htag as [Ht Hu]. split; [exact Ht|congruence].
Qed.







End EnhancerProperties.

(** ** Claims on the image enhancer *)

Section EnhancerClaims.
Context {W : Type} `{World W} `{Library}.

(** C5: the polling loop of a job always ends. It polls at most 30
    times, with a sleep of 10 seconds after every poll that finds the
    job still running. It returns the first URL when the job is
    complete with generated images; it raises when the job is complete
    without images, when it has failed, or when the poll itself
    raises; and it raises a timeout once 30 polls have found the job
    running. *)
Theorem poll_generation_completion_bounded
    (generation_id : string) (st : io_state W) :
  ∃ (pending : list generation) (tail : list event)
    (r : outcome string) (st' : io_state W),
    _poll_generation_completion generation_id st = (r, st') ∧
    Forall still_running pending ∧
    log st' = (log st ++ pending_polls generation_id pending ++ tail)%list ∧
    ((length pending = 30%nat ∧ tail = [] ∧
      r = Raised (Exn PlainException "Generation timeout"))
     ∨ ((length pending < 30)%nat ∧
        ∃ last, tail = [EvPoll generation_id last] ∧ ends_with last r)).
Proof. exact (poll_loop_spec generation_id max_attempts st). Qed.


(** C3: for a list of at most five URLs the batch returns exactly one
    image per URL, in order and with that URL as its original; each
    image is the one its own run returned, tagged full_enhancement or
    fallback_original, whatever happened to the other images. *)
Theorem enhance_one_result_per_image (image_urls : list string)
    (style : string) (enhance_quality : bool) (st : io_state W) :
  (length image_urls ≤ 5)%nat →
  ∃ imgs st',
    enhance_product_images image_urls style enhance_quality st = (Ok imgs, st') ∧
    length imgs = length image_urls ∧
    map original_url imgs = image_urls ∧
    Forall well_tagged imgs ∧
    each_alone (λ url, enhance_single_image url style enhance_quality false)
               image_urls st imgs st'.
Proof.
  intros Hlen.
  destruct (enhance_product_images_spec image_urls style enhance_quality st)
    as (imgs & st' & Hrun & Heach).
  rewrite take_ge in Heach by lia.
  exists imgs, st'. split; [exact Hrun|].
  split; [eapply each_alone_length; exact Heach|].
  destruct (each_alone_single _ _ _ _ _ _ Heach) as [Hm Ht].
  auto.
Qed.

(** C10: of a list of more than five URLs only the first five are
    enhanced, in order; the batch returns exactly five images and
    raises nothing. *)
Theorem enhance_truncates_to_five (image_urls : list string)
    (style : string) (enhance_quality : bool) (st : io_state W) :
  (5 < length image_urls)%nat →
  ∃ imgs st',
    enhance_product_images image_urls style enhance_quality st = (Ok imgs, st') ∧
    length imgs = 5%nat ∧
    map original_url imgs = take 5 image_urls.
Proof.
  intros Hlen.
  destruct (enhance_product_images_spec image_urls style enhance_quality st)
    as (imgs & st' & Hrun & Heach).
  exists imgs, st'. split; [exact Hrun|].
  split.
  - rewrite (each_alone_length _ _ _ _ _ Heach). rewrite length_take. lia.
  - destruct (each_alone_single _ _ _ _ _ _ Heach) as [Hm _]. exact Hm.
Qed.

End EnhancerClaims.


Lemma enhance_one_result_per_image_witness :
  (length two_urls ≤ 5)%nat ∧
  ∃ imgs st',
    enhance_product_images two_urls "modern" true (start []) = (Ok imgs, st') ∧
    length imgs = length two_urls ∧
    map original_url imgs = two_urls ∧
    Forall well_tagged imgs ∧
    each_alone (λ url, enhance_single_image url "modern" true false)
               two_urls (start []) imgs st'.
Proof.
  split; [simpl; lia|].
  apply (enhance_one_result_per_image two_urls "modern" true (start [])).
  simpl; lia.
Defined.

Lemma enhance_truncates_to_five_witness :
  (5 < length six_urls)%nat ∧
  ∃ imgs st',
    enhance_product_images six_urls "modern" true (start []) = (Ok imgs, st') ∧
    length imgs = 5%nat ∧
    map original_url imgs = take 5 six_urls.
Proof.
  split; [simpl; lia|].
  apply (enhance_truncates_to_five six_urls "modern" true (start [])).
  simpl; lia.
Defined.

(** ** Claims on the content generator *)


Section ContentClaims.
Context {W : Type} `{World W} `{Library}.

Lemma gather_first_raises {A} (t : IO W A) (ts : list (IO W A))
    (st : io_state W) (e : exn) :
  (t st).1 = Raised e → (gather (t :: ts) st).1 = Raised e.
Proof.
  unfold gather. simpl. destruct (t st) as [r st1]. simpl. intros ->.
  destruct (gather_all ts st1). reflexivity.
Qed.

(** An exception of a generation call is not absorbed: when the
    first call raises, [generate_complete_content] raises it. *)
Lemma generation_error_propagates (product_info : ProductInfo)
    (st : io_state W) (e : exn) :
  (world_chat ProductCopy product_info (world st)).1 = Raised e →
  (generate_complete_content product_info st).1 = Raised e.
Proof.
  intros Hc. unfold generate_complete_content.
  match goal with
  | |- context [gather (?t :: ?ts)] =>
      pose proof (gather_first_raises t ts st e) as Hg;
      unfold mbind, ST_bind, st_bind;
      destruct (gather (t :: ts) st) as [r st']
  end.
  simpl in Hg. rewrite Hg; [reflexivity|].
  unfold generate_product_copy, chat_completions_create, call.
  unfold_monad.
  destruct (world_chat ProductCopy product_info (world st)) as [r0 w1].
  simpl in Hc. subst r0. reflexivity.
Qed.


End ContentClaims.



(** ** Claims on the assembler *)

Section AssemblerClaims.
Context {W : Type} `{World W} `{Library}.

(** C9: the assembler is a function of its four arguments alone. Two
    runs on the same arguments give the same result whatever the
    state of the world and of the tables, the timestamp included
    (it is the creation time of the store, not the time of the
    run), and a run leaves the state as it found it: it makes no
    call and writes nothing. *)
Theorem build_store_structure_pure (store : Store)
    (scraped_product : ScrapedProduct) (generated_content : GeneratedContent)
    (enhanced_images : list EnhancedImage) (st1 st2 : svc_state W) :
  (_build_store_structure store scraped_product generated_content
     enhanced_images st1).1
  = (_build_store_structure store scraped_product generated_content
       enhanced_images st2).1 ∧
  (_build_store_structure store scraped_product generated_content
     enhanced_images st1).2 = st1 ∧
  List.filter is_network_call
    (log (io (_build_store_structure store scraped_product generated_content
                enhanced_images st1).2))
  = List.filter is_network_call (log (io st1)).
Proof.
  unfold _build_store_structure. unfold_monad.
  destruct (created_at store); simpl; auto.
Qed.

(** The image the assembler puts on the homepage and in the SEO
    block. *)
Lemma hero_images (store : Store) (scraped_product : ScrapedProduct)
    (generated_content : GeneratedContent)
    (enhanced_images : list EnhancedImage) (st : svc_state W) (doc : store_data) :
  (_build_store_structure store scraped_product generated_content
     enhanced_images st).1 = Ok doc →
  fp_image (hp_featured_product (homepage doc)) =
    match enhanced_images with
    | img :: _ => Some (enhanced_url img)
    | [] => head (sp_images scraped_product)
    end ∧
  og_image (seo doc) = enhanced_url <$> head enhanced_images.
Proof.
  unfold _build_store_structure. unfold_monad.
  destruct (created_at store); simpl; [|discriminate].
  intros [= <-]. simpl.
  destruct enhanced_images, (sp_images scraped_product); simpl; auto.
Qed.

End AssemblerClaims.

(** The two blocks do not read the same expression: handed no enhanced
    image and two original images, the assembler puts the first
    original image on the homepage and leaves the SEO image empty. No
    run of the orchestrator calls it so, as the claim on the hero image
    shows below: the enhancer returns an image for every URL it is
    given. *)
Remark seo_block_has_no_fallback_of_its_own :
  ∃ doc,
    (_build_store_structure sample_store sample_product sample_content []
       (service_start [] [sample_store] [sample_user])).1 = Ok doc ∧
    fp_image (hp_featured_product (homepage doc))
      = Some "https://shop.example/a.jpg" ∧
    og_image (seo doc) = None.
Proof. eexists. split; [reflexivity|]. split; reflexivity. Qed.

(** ** Claims on the orchestrator *)

Section OrchestratorClaims.
Context {W : Type} `{World W} `{Library}.

Lemma build_store_structure_frame (store : Store)
    (scraped_product : ScrapedProduct) (generated_content : GeneratedContent)
    (enhanced_images : list EnhancedImage) (st : svc_state W) :
  ∃ r, _build_store_structure store scraped_product generated_content
         enhanced_images st = (r, st).
Proof.
  unfold _build_store_structure. unfold_monad.
  destruct (created_at store); eauto.
Qed.

Lemma generate_complete_store_rows (st : svc_state W) (store_id : Z)
    (product_url : string) (store : Store) :
  stores st !! store_id = Some store →
  Store_id store = store_id →
  ∃ r st' k final,
    (1 ≤ k ≤ 5)%nat ∧
    generate_complete_store store_id product_url st = (r, st') ∧
    committed st' =
      (committed st ++ checkpoints (take k progress_messages) store ++ [final])%list ∧
    stores st' !! store_id = Some final ∧
    Store_id final = store_id ∧
    match r with
    | Ok _ => k = 5%nat ∧ status final = "completed" ∧ generation_progress final = 100
    | Raised e =>
        Some final
        = set_error (str e) <$> last (checkpoints (take k progress_messages) store)
    end.
Proof.
  intros Hlookup <-.
  unfold generate_complete_store, try_except, query_store.
  unfold_monad. rewrite Hlookup.
  unfold _update_store_progress, db_commit. unfold_monad. simpl.
  unfold lift_io at 1. simpl.
  destruct (scrape_product product_url (io st)) as [[scraped|e] io1].
  2:{ simpl. rewrite lookup_insert_eq.
      eexists _, _, 1%nat, _. split; [lia|]. split; [reflexivity|].
      simpl. split; [rewrite <- app_assoc; reflexivity|].
      split; [apply lookup_insert_eq|]. split; reflexivity. }
  unfold lift_io at 1. simpl.
  destruct (generate_complete_content _ io1) as [[content|e] io2].
  2:{ simpl. rewrite lookup_insert_eq.
      eexists _, _, 2%nat, _. split; [lia|]. split; [reflexivity|].
      simpl. split; [rewrite <- !app_assoc; reflexivity|].
      split; [apply lookup_insert_eq|]. split; reflexivity. }
  simpl.
  assert (∃ r io3,
    ∀ (ss : gmap Z Store) (us : gmap Z User) (cs : list Store),
      match sp_images scraped with
      | [] => λ st0 : svc_state W, (Ok [], st0)
      | s :: l => lift_io (enhance_product_images (s :: l) (theme_style store) true)
      end (SvcState io2 ss us cs) = (r, SvcState io3 ss us cs))
    as (r3 & io3 & Henh).
  { destruct (sp_images scraped) as [|u rest].
    - exists (Ok []), io2. reflexivity.
    - destruct (enhance_product_images (u :: rest) (theme_style store) true io2)
        as [r io3] eqn:He.
      exists r, io3. intros. unfold lift_io. simpl. rewrite He. reflexivity. }
  rewrite Henh. destruct r3 as [images|e].
  2:{ simpl. rewrite lookup_insert_eq.
      eexists _, _, 3%nat, _. split; [lia|]. split; [reflexivity|].
      simpl. split; [rewrite <- !app_assoc; reflexivity|].
      split; [apply lookup_insert_eq|]. split; reflexivity. }
  simpl.
  match goal with
  | |- context [_build_store_structure ?s ?p ?c ?i ?state] =>
      destruct (build_store_structure_frame s p c i state) as [r4 Hb];
      rewrite Hb
  end.
  destruct r4 as [doc|e].
  2:{ simpl. rewrite lookup_insert_eq.
      eexists _, _, 4%nat, _. split; [lia|]. split; [reflexivity|].
      simpl. split; [rewrite <- !app_assoc; reflexivity|].
      split; [apply lookup_insert_eq|]. split; reflexivity. }
  simpl.
  eexists _, _, 5%nat, _. split; [lia|]. split; [reflexivity|].
  simpl. split; [rewrite <- !app_assoc; reflexivity|].
  split; [apply lookup_insert_eq|]. auto.
Qed.

Lemma progress_values_own (store_id : Z) (rows : list Store) :
  Forall (λ s, Store_id s = store_id) rows →
  progress_values store_id rows = map generation_progress rows.
Proof.
  unfold progress_values. induction 1 as [|s rows Hs _ IH]; [reflexivity|].
  rewrite filter_cons_True by exact Hs. simpl. rewrite IH. reflexivity.
Qed.

Lemma checkpoints_own (steps : list (Z * string)) (store : Store) :
  Forall (λ s, Store_id s = Store_id store) (checkpoints steps store).
Proof.
  revert store. induction steps as [|[p m] steps IH]; intros store; simpl.
  - constructor.
  - constructor; [reflexivity|]. apply (IH (set_progress p m store)).
Qed.

(** C4: the progress values a run of the orchestrator commits for its
    store never decrease. A run that succeeds ends on 100 with the
    status completed; a run that fails leaves the status error and
    the progress of the last checkpoint it had committed. *)
Theorem progress_non_decreasing (st : svc_state W) (store_id : Z)
    (product_url : string) (store : Store) :
  stores st !! store_id = Some store →
  Store_id store = store_id →
  ∃ r st' written,
    generate_complete_store store_id product_url st = (r, st') ∧
    committed st' = (committed st ++ written)%list ∧
    non_decreasing (progress_values store_id written) ∧
    match r with
    | Ok _ =>
        last (progress_values store_id written) = Some 100 ∧
        ∃ row, stores st' !! store_id = Some row ∧
               status row = "completed" ∧ generation_progress row = 100
    | Raised e =>
        ∃ before row p,
          written = (before ++ [row])%list ∧
          last (progress_values store_id before) = Some p ∧
          generation_progress row = p ∧
          status row = "error" ∧
          stores st' !! store_id = Some row
    end.
Proof.
  intros Hlookup Hid.
  destruct (generate_complete_store_rows st store_id product_url store Hlookup Hid)
    as (r & st' & k & final & Hk & Hrun & Hrows & Hfinal & Hfid & Hr).
  exists r, st', (checkpoints (take k progress_messages) store ++ [final])%list.
  split; [exact Hrun|]. split; [exact Hrows|].
  assert (Hown : ∀ rows, rows = checkpoints (take k progress_messages) store →
            progress_values store_id (rows ++ [final])
            = (map generation_progress rows ++ [generation_progress final])%list
            ∧ progress_values store_id rows = map generation_progress rows).
  { intros rows ->. split.
    - rewrite progress_values_own; [rewrite map_app; reflexivity|].
      apply Forall_app. split.
      + rewrite <- Hid. apply checkpoints_own.
      + constructor; [exact Hfid|constructor].
    - apply progress_values_own. rewrite <- Hid. apply checkpoints_own. }
  destruct (Hown _ eq_refl) as [Hall Hbefore]. rewrite Hall.
  destruct r as [result|e].
  - destruct Hr as (-> & Hstatus & Hprogress). rewrite Hprogress.
    simpl. split; [lia|]. split; [reflexivity|]. eauto.
  - assert (k = 1 ∨ k = 2 ∨ k = 3 ∨ k = 4 ∨ k = 5)%nat as Hcases by lia.
    split.
    + destruct Hcases as [-> | [-> | [-> | [-> | ->]]]];
        simpl in Hr; injection Hr as ->; simpl; lia.
    + exists (checkpoints (take k progress_messages) store), final.
      rewrite Hbefore.
      destruct Hcases as [-> | [-> | [-> | [-> | ->]]]];
        simpl in Hr; injection Hr as ->; simpl;
        eexists; split_and!; reflexivity || assumption.
Qed.

(** C6: when the scrape of the product page fails, the run is over:
    it raises the error of the scrape, and the store is left with the
    status error, the text of the error as its message, and the
    progress 10 of the one checkpoint that was committed. *)
Theorem scrape_failure_is_fatal (st : svc_state W) (store_id : Z)
    (product_url : string) (store : Store) (e : exn) :
  stores st !! store_id = Some store →
  Store_id store = store_id →
  (world_scrape product_url (world (io st))).1 = Raised e →
  ∃ st' row,
    generate_complete_store store_id product_url st = (Raised e, st') ∧
    stores st' !! store_id = Some row ∧
    status row = "error" ∧
    error_message row = Some (str e) ∧
    generation_progress row = 10 ∧
    progress_values store_id (drop (length (committed st)) (committed st'))
      = [10; 10].
Proof.
  intros Hlookup <- Hscrape.
  unfold generate_complete_store, try_except, query_store.
  unfold_monad. rewrite Hlookup.
  unfold _update_store_progress, db_commit. unfold_monad. simpl.
  unfold lift_io at 1. unfold scrape_product, call. simpl.
  destruct (world_scrape product_url (world (io st))) as [r w1].
  simpl in Hscrape. subst r. simpl. rewrite lookup_insert_eq.
  eexists _, _. split; [reflexivity|]. simpl.
  split; [apply lookup_insert_eq|].
  split; [reflexivity|]. split; [reflexivity|]. split; [reflexivity|].
  rewrite <- app_assoc. rewrite drop_app_length.
  rewrite progress_values_own; [reflexivity|].
  repeat constructor.
Qed.

End OrchestratorClaims.

Lemma progress_non_decreasing_witness :
  let st := service_start degraded_run [sample_store] [sample_user] in
  stores st !! 7 = Some sample_store ∧
  Store_id sample_store = 7 ∧
  ∃ r st' written,
    generate_complete_store 7 product_url st = (r, st') ∧
    committed st' = (committed st ++ written)%list ∧
    non_decreasing (progress_values 7 written) ∧
    match r with
    | Ok _ =>
        last (progress_values 7 written) = Some 100 ∧
        ∃ row, stores st' !! 7 = Some row ∧
               status row = "completed" ∧ generation_progress row = 100
    | Raised e =>
        ∃ before row p,
          written = (before ++ [row])%list ∧
          last (progress_values 7 before) = Some p ∧
          generation_progress row = p ∧
          status row = "error" ∧
          stores st' !! 7 = Some row
    end.
Proof.
  intros st. split; [reflexivity|]. split; [reflexivity|].
  apply (progress_non_decreasing st 7 product_url sample_store);
    reflexivity.
Defined.

Lemma scrape_failure_is_fatal_witness :
  let st := service_start [RError "Failed to scrape generic site: timeout"]
              [sample_store] [sample_user] in
  stores st !! 7 = Some sample_store ∧
  Store_id sample_store = 7 ∧
  (world_scrape product_url (world (io st))).1
    = Raised (Exn TransportError "Failed to scrape generic site: timeout") ∧
  ∃ st' row,
    generate_complete_store 7 product_url st
      = (Raised (Exn TransportError "Failed to scrape generic site: timeout"), st') ∧
    stores st' !! 7 = Some row ∧
    status row = "error" ∧
    error_message row = Some "Failed to scrape generic site: timeout" ∧
    generation_progress row = 10 ∧
    progress_values 7 (drop (length (committed st)) (committed st')) = [10; 10].
Proof.
  intros st. split; [reflexivity|]. split; [reflexivity|]. split; [reflexivity|].
  apply (scrape_failure_is_fatal st 7 product_url sample_store
           (Exn TransportError "Failed to scrape generic site: timeout"));
    reflexivity.
Defined.

(** The scenario of the specification: all six generation calls give
    no JSON and both images fail at their download. The run still
    completes, on the progress values 10, 25, 50, 75, 90, 100, with
    both images tagged as fallbacks. *)
Example degraded_run_completes :
  let st' := (generate_complete_store 7 product_url
                (service_start degraded_run [sample_store] [sample_user])).2 in
  progress_values 7 (committed st') = [10; 25; 50; 75; 90; 100] ∧
  status <$> stores st' !! 7 = Some "completed" ∧
  (map enhancement_type ∘ enhanced_images) <$> stores st' !! 7
    = Some ["fallback_original"; "fallback_original"].
Proof. vm_compute. auto. Qed.

(** ** The hero image *)

Section HeroImageClaim.
Context {W : Type} `{World W} `{Library}.





End HeroImageClaim.


(** ** Claims on publishing *)

Section PublishClaims.
Context {W : Type} `{World W} `{Library}.

(** C7: a publish request for a store of the user whose status is
    not completed is rejected with the HTTP error 400. No background
    task is added, so the publisher does not run: the tables, the
    world and the log are as before, and no call went to the commerce
    platform. *)
Theorem publish_rejected_unless_completed (db : svc_state W) (store_id : Z)
    (current_user : User) (store : Store) :
  stores db !! store_id = Some store →
  user_id store = User_id current_user →
  status store ≠ "completed" →
  publish_store store_id current_user db
    = (HTTPException 400 "Store must be completed before publishing", []) ∧
  serve_publish store_id current_user db
    = (HTTPException 400 "Store must be completed before publishing", db) ∧
  List.filter is_platform_call
    (log (io (serve_publish store_id current_user db).2))
  = List.filter is_platform_call (log (io db)).
Proof.
  intros Hlookup Huser Hstatus.
  assert (publish_store store_id current_user db
          = (HTTPException 400 "Store must be completed before publishing", []))
    as Hroute.
  { unfold publish_store, query_store_of_user. rewrite Hlookup.
    rewrite Huser, Z.eqb_refl.
    apply String.eqb_neq in Hstatus. rewrite Hstatus. reflexivity. }
  split; [exact Hroute|].
  unfold serve_publish. rewrite Hroute. simpl. auto.
Qed.

End PublishClaims.

Lemma publish_rejected_unless_completed_witness :
  let db := service_start [RId 101] [sample_store] [sample_user] in
  stores db !! 7 = Some sample_store ∧
  user_id sample_store = User_id sample_user ∧
  status sample_store ≠ "completed" ∧
  publish_store 7 sample_user db
    = (HTTPException 400 "Store must be completed before publishing", []) ∧
  serve_publish 7 sample_user db
    = (HTTPException 400 "Store must be completed before publishing", db) ∧
  List.filter is_platform_call (log (io (serve_publish 7 sample_user db).2))
  = List.filter is_platform_call (log (io db)).
Proof.
  intros db. split; [reflexivity|]. split; [reflexivity|].
  split; [simpl; discriminate|].
  apply (publish_rejected_unless_completed db 7 sample_user sample_store);
    [reflexivity|reflexivity|simpl; discriminate].
Defined.

(** Once the run has completed the same request is accepted, and its
    background task creates the product and the five pages. *)
Example completed_store_is_published :
  let st1 := (generate_complete_store 7 product_url
                (service_start degraded_run [sample_store] [sample_user])).2 in
  let '(response, st2) := serve_publish 7 sample_user st1 in
  response = Response ("Publishing started", 7) ∧
  status <$> stores st2 !! 7 = Some "published" ∧
  length (List.filter is_platform_call (log (io st2))) = 6%nat.
Proof. vm_compute. auto. Qed.

(** The gate is in the route only: called directly on a store that is
    still generating, [publish_to_shopify] creates the product and
    marks the store published. *)
Remark publisher_has_no_gate_of_its_own :
  let st' := (publish_to_shopify 7
                (service_start [RId 101] [sample_store] [sample_user])).2 in
  status sample_store = "generating" ∧
  length (List.filter is_platform_call (log (io st'))) = 1%nat ∧
  status <$> stores st' !! 7 = Some "published".
Proof. vm_compute. auto. Qed.

(** * Further properties *)

(** ** The image enhancer *)

Lemma chars_app (a b : string) : chars (a ++ b) = (chars a ++ chars b)%list.
Proof. induction a as [|c a IH]; simpl; [reflexivity|]. rewrite IH. reflexivity. Qed.

Lemma remove_char_gone (c : ascii) (s : string) : c ∉ chars (remove_char c s).
Proof.
  induction s as [|c' s IH]; simpl.
  - apply not_elem_of_nil.
  - destruct (Ascii.eqb c' c) eqn:Hc; [exact IH|].
    simpl. apply not_elem_of_cons. split; [|exact IH].
    intros ->. rewrite Ascii.eqb_refl in Hc. discriminate.
Qed.

Lemma polls_app (l1 l2 : list event) : polls (l1 ++ l2) = (polls l1 + polls l2)%nat.
Proof. unfold polls. rewrite List.filter_app, length_app. reflexivity. Qed.

Lemma slept_app (l1 l2 : list event) : slept (l1 ++ l2) = slept l1 + slept l2.
Proof.
  unfold slept. induction l1 as [|e l1 IH]; simpl; [lia|].
  destruct e; simpl; rewrite ?IH; lia.
Qed.

Lemma pending_polls_cost (generation_id : string) (gs : list generation) :
  polls (pending_polls generation_id gs) = length gs ∧
  slept (pending_polls generation_id gs) = 10 * Z.of_nat (length gs).
Proof.
  induction gs as [|g gs [IHp IHs]]; [split; reflexivity|].
  split.
  - change (pending_polls generation_id (g :: gs))
      with ([EvPoll generation_id (Ok g); EvSleep 10]
            ++ pending_polls generation_id gs)%list.
    rewrite polls_app, IHp. reflexivity.
  - change (pending_polls generation_id (g :: gs))
      with ([EvPoll generation_id (Ok g); EvSleep 10]
            ++ pending_polls generation_id gs)%list.
    rewrite slept_app, IHs. simpl length. unfold slept at 1. simpl. lia.
Qed.

Section EnhancerMore.
Context {W : Type} `{World W} `{Library}.

(** What a run of the polling loop adds to the log: at most thirty
    polls and at most 300 seconds of sleep. *)
Lemma poll_cost (generation_id : string) (st st' : io_state W) (r : outcome string) :
  _poll_generation_completion generation_id st = (r, st') →
  ∃ delta, log st' = (log st ++ delta)%list ∧
           (polls delta ≤ 30)%nat ∧ (0 ≤ slept delta ≤ 300)%Z ∧
           (∀ url, r = Ok url →
              ∃ g, EvPoll generation_id (Ok g) ∈ delta ∧
                   head (generated_images g) = Some url).
Proof.
  intros Hrun.
  destruct (poll_loop_spec generation_id max_attempts st)
    as (pending & tail & r0 & st0 & Hrun0 & _ & Hlog & Hend).
  unfold _poll_generation_completion in Hrun.
  rewrite Hrun in Hrun0. injection Hrun0 as <- <-.
  exists (pending_polls generation_id pending ++ tail)%list.
  split; [exact Hlog|].
  destruct (pending_polls_cost generation_id pending) as [Hp Hs].
  rewrite polls_app, slept_app, Hp, Hs.
  destruct Hend as [(Hlen & -> & ->) | (Hlen & last & -> & Hlast)].
  - unfold max_attempts in Hlen. rewrite Hlen.
    replace (polls []) with 0%nat by reflexivity.
    replace (slept []) with 0 by reflexivity.
    split; [lia|]. split; [lia|]. intros url [=].
  - unfold max_attempts in Hlen.
    replace (polls [EvPoll generation_id last]) with 1%nat by reflexivity.
    replace (slept [EvPoll generation_id last]) with 0 by reflexivity.
    split; [lia|]. split; [lia|].
    intros url ->. destruct last as [g|e]; simpl in Hlast.
    + exists g. split; [apply elem_of_app; right; constructor|].
      destruct Hlast as [(_ & u & rest & Himgs & [= ->]) | [(_ & _ & [=]) | (_ & [=])]].
      rewrite Himgs. reflexivity.
    + discriminate Hlast.
Qed.

Lemma run_generation_cost (p : payload) (st st' : io_state W) (r : outcome bytes) :
  run_generation p st = (r, st') →
  ∃ delta, log st' = (log st ++ delta)%list ∧
           (polls delta ≤ 30)%nat ∧ (0 ≤ slept delta ≤ 300)%Z.
Proof.
  unfold run_generation. unfold_monad.
  destruct (call (world_submit p) (EvSubmit p) st) as [[generation_id|e] st1] eqn:Hsub.
  - apply call_log in Hsub.
    destruct (_poll_generation_completion generation_id st1) as [[url|e] st2] eqn:Hpoll.
    + apply poll_cost in Hpoll as (d2 & Hl2 & Hp2 & Hs2 & _).
      unfold _download_image.
      destruct (call (world_download url) (EvDownload url) st2) as [r3 st3] eqn:Hd.
      apply call_log in Hd. intros [= <- <-].
      exists ([EvSubmit p (Ok generation_id)] ++ d2 ++ [EvDownload url r3])%list.
      split.
      { rewrite Hd, Hl2, Hsub. rewrite <- !app_assoc. reflexivity. }
      rewrite !polls_app, !slept_app.
      replace (polls [EvSubmit p (Ok generation_id)]) with 0%nat by reflexivity.
      replace (slept [EvSubmit p (Ok generation_id)]) with 0 by reflexivity.
      replace (polls [EvDownload url r3]) with 0%nat by reflexivity.
      replace (slept [EvDownload url r3]) with 0 by reflexivity.
      lia.
    + apply poll_cost in Hpoll as (d2 & Hl2 & Hp2 & Hs2 & _). intros [= <- <-].
      exists ([EvSubmit p (Ok generation_id)] ++ d2)%list.
      split.
      { rewrite Hl2, Hsub. rewrite <- !app_assoc. reflexivity. }
      rewrite !polls_app, !slept_app.
      replace (polls [EvSubmit p (Ok generation_id)]) with 0%nat by reflexivity.
      replace (slept [EvSubmit p (Ok generation_id)]) with 0 by reflexivity.
      lia.
  - apply call_log in Hsub. intros [= <- <-].
    exists [EvSubmit p (Raised e)]. split; [exact Hsub|].
    replace (polls [EvSubmit p (Raised e)]) with 0%nat by reflexivity.
    replace (slept [EvSubmit p (Raised e)]) with 0 by reflexivity.
    lia.
Qed.

Lemma pass_cost (p : payload) (image_data : bytes) (st : io_state W) :
  ∃ out st' delta,
    try_except (run_generation p) (λ _, mret image_data) st = (Ok out, st') ∧
    log st' = (log st ++ delta)%list ∧
    (polls delta ≤ 30)%nat ∧ (0 ≤ slept delta ≤ 300)%Z.
Proof.
  unfold try_except.
  destruct (run_generation p st) as [[out|e] st'] eqn:Hrun;
    destruct (run_generation_cost _ _ _ _ Hrun) as (delta & Hlog & Hp & Hs);
    eauto 10.
Qed.

Lemma quality_cost (image_data : bytes) (st : io_state W) :
  ∃ out st' delta,
    _enhance_image_quality image_data st = (Ok out, st') ∧
    log st' = (log st ++ delta)%list ∧
    (polls delta ≤ 30)%nat ∧ (0 ≤ slept delta ≤ 300)%Z.
Proof. exact (pass_cost (quality_payload image_data) image_data st). Qed.

Lemma background_cost (image_data : bytes) (st : io_state W) :
  ∃ out st' delta,
    _remove_background image_data st = (Ok out, st') ∧
    log st' = (log st ++ delta)%list ∧
    (polls delta ≤ 30)%nat ∧ (0 ≤ slept delta ≤ 300)%Z.
Proof. exact (pass_cost (background_payload image_data) image_data st). Qed.

Lemma style_cost (image_data : bytes) (style : string) (st : io_state W) :
  ∃ out st' delta,
    _apply_style_enhancement image_data style st = (Ok out, st') ∧
    log st' = (log st ++ delta)%list ∧
    (polls delta ≤ 30)%nat ∧ (0 ≤ slept delta ≤ 300)%Z.
Proof. exact (pass_cost (style_payload image_data style) image_data st). Qed.

Ltac cost_quality i s d L P S :=
  match goal with
  | |- context [_enhance_image_quality ?x ?st] =>
      destruct (quality_cost x st) as (i & s & d & -> & L & P & S)
  end.
Ltac cost_background i s d L P S :=
  match goal with
  | |- context [_remove_background ?x ?st] =>
      destruct (background_cost x st) as (i & s & d & -> & L & P & S)
  end.
Ltac cost_style i s d L P S :=
  match goal with
  | |- context [_apply_style_enhancement ?x ?y ?st] =>
      destruct (style_cost x y st) as (i & s & d & -> & L & P & S)
  end.
Ltac zero_cost :=
  repeat match goal with
         | |- context [polls [EvDownload ?u ?r]] =>
             replace (polls [EvDownload u r]) with 0%nat by reflexivity
         | |- context [slept [EvDownload ?u ?r]] =>
             replace (slept [EvDownload u r]) with 0 by reflexivity
         end.

(** Every pass of [enhance_single_image] stays within its polling budget;
    the bounds add up over the passes that are run. *)
Lemma single_image_budget (image_url style : string)
    (enhance_quality remove_background : bool) (st : io_state W) :
  ∃ img st' delta,
    enhance_single_image image_url style enhance_quality remove_background st
      = (Ok img, st') ∧
    log st' = (log st ++ delta)%list ∧
    (polls delta
       ≤ 30 * (1 + Nat.b2n enhance_quality + Nat.b2n remove_background))%nat ∧
    (0 ≤ slept delta
       ≤ 300 * (1 + Z.b2z enhance_quality + Z.b2z remove_background))%Z.
Proof.
  unfold enhance_single_image, time_time. unfold_monad.
  unfold _download_image, call.
  destruct (world_download image_url (world st)) as [[original|e] w0] eqn:Hd; simpl.
  2:{ eexists _, _, _. split; [reflexivity|]. simpl. split; [reflexivity|].
      zero_cost. destruct enhance_quality, remove_background; simpl; lia. }
  destruct enhance_quality, remove_background.
  - cost_quality i1 s1 d1 L1 P1 S1. cost_background i2 s2 d2 L2 P2 S2.
    cost_style i3 s3 d3 L3 P3 S3.
    unfold _upload_enhanced_image; unfold_monad.
    eexists _, _, ([EvDownload image_url (Ok original)] ++ d1 ++ d2 ++ d3)%list.
    split; [reflexivity|]. simpl log. split.
    { rewrite L3, L2, L1. simpl. rewrite <- !app_assoc. reflexivity. }
    rewrite !polls_app, !slept_app. zero_cost. simpl Nat.b2n. simpl Z.b2z. lia.
  - cost_quality i1 s1 d1 L1 P1 S1. cost_style i3 s3 d3 L3 P3 S3.
    unfold _upload_enhanced_image; unfold_monad.
    eexists _, _, ([EvDownload image_url (Ok original)] ++ d1 ++ d3)%list.
    split; [reflexivity|]. simpl log. split.
    { rewrite L3, L1. simpl. rewrite <- !app_assoc. reflexivity. }
    rewrite !polls_app, !slept_app. zero_cost. simpl Nat.b2n. simpl Z.b2z. lia.
  - cost_background i2 s2 d2 L2 P2 S2. cost_style i3 s3 d3 L3 P3 S3.
    unfold _upload_enhanced_image; unfold_monad.
    eexists _, _, ([EvDownload image_url (Ok original)] ++ d2 ++ d3)%list.
    split; [reflexivity|]. simpl log. split.
    { rewrite L3, L2. simpl. rewrite <- !app_assoc. reflexivity. }
    rewrite !polls_app, !slept_app. zero_cost. simpl Nat.b2n. simpl Z.b2z. lia.
  - cost_style i3 s3 d3 L3 P3 S3.
    unfold _upload_enhanced_image; unfold_monad.
    eexists _, _, ([EvDownload image_url (Ok original)] ++ d3)%list.
    split; [reflexivity|]. simpl log. split.
    { rewrite L3. simpl. rewrite <- !app_assoc. reflexivity. }
    rewrite !polls_app, !slept_app. zero_cost. simpl Nat.b2n. simpl Z.b2z. lia.
Qed.

(** The cost of one image: each pass that is run polls at most thirty
    times and sleeps at most 300 seconds, so a run with all three
    passes stays within 90 polls and 900 seconds of sleep. *)
Theorem single_image_cost (image_url style : string)
    (enhance_quality remove_background : bool) (st : io_state W) :
  ∃ img st' delta,
    enhance_single_image image_url style enhance_quality remove_background st
      = (Ok img, st') ∧
    log st' = (log st ++ delta)%list ∧
    (polls delta
       ≤ 30 * (1 + Nat.b2n enhance_quality + Nat.b2n remove_background))%nat ∧
    (0 ≤ slept delta
       ≤ 300 * (1 + Z.b2z enhance_quality + Z.b2z remove_background))%Z.
Proof.
  exact (single_image_budget image_url style enhance_quality remove_background st).
Qed.

(** An image whose source cannot be downloaded costs nothing more: the
    failed download is the only call made, no job is submitted, and the
    image that comes back points to the original URL. *)
Theorem failed_download_submits_nothing (image_url style : string)
    (enhance_quality remove_background : bool) (st : io_state W)
    (e : exn) (w' : W) :
  world_download image_url (world st) = (Raised e, w') →
  enhance_single_image image_url style enhance_quality remove_background st
  = (Ok {| original_url := image_url;
           enhanced_url := image_url;
           style := style;
           processing_time := world_time w' - world_time (world st);
           enhancement_type := "fallback_original" |},
     IoState w' (log st ++ [EvDownload image_url (Raised e)])).
Proof.
  intros Hd. unfold enhance_single_image, time_time. unfold_monad.
  unfold _download_image, call. rewrite Hd. reflexivity.
Qed.

(** An image on which every pass fails at its submission is still
    reported as a full enhancement: the original bytes go through the
    passes unchanged and the enhanced URL is the upload address of
    those same bytes. *)
Theorem all_passes_failing_is_full_enhancement (image_url style : string)
    (st : io_state W) (original : bytes) (e1 e2 : exn) (w1 w2 w3 : W) :
  world_download image_url (world st) = (Ok original, w1) →
  world_submit (quality_payload original) w1 = (Raised e1, w2) →
  world_submit (style_payload original style) w2 = (Raised e2, w3) →
  enhance_single_image image_url style true false st
  = (Ok {| original_url := image_url;
           enhanced_url :=
             "https://" ++ AWS_S3_BUCKET ++ ".s3.amazonaws.com/enhanced/"
             ++ md5_hexdigest original ++ ".jpg";
           style := style;
           processing_time := world_time w3 - world_time (world st);
           enhancement_type := "full_enhancement" |},
     IoState w3 (log st ++ [ EvDownload image_url (Ok original);
                             EvSubmit (quality_payload original) (Raised e1);
                             EvSubmit (style_payload original style) (Raised e2) ])).
Proof.
  intros Hd Hq Hs.
  unfold enhance_single_image, time_time, _enhance_image_quality,
    _apply_style_enhancement, _upload_enhanced_image, run_generation,
    _download_image, call.
  unfold_monad. rewrite Hd. simpl. rewrite Hq. simpl. rewrite Hs. simpl.
  rewrite <- !app_assoc. reflexivity.
Qed.

(** [generate_branded_background] never raises. The URL it returns is
    the first image of a job that a poll found complete, or else the
    placeholder address, in which no colour keeps its [#]. *)
Theorem branded_background_never_raises (brand_colors : str_dict)
    (style : string) (st : io_state W) :
  let primary_color := dict_get brand_colors "primary" "#ffffff" in
  let secondary_color := dict_get brand_colors "secondary" "#f8f9fa" in
  ∃ url st',
    generate_branded_background brand_colors style st = (Ok url, st') ∧
    (url = placeholder_url primary_color secondary_color
     ∨ ∃ generation_id g,
         EvPoll generation_id (Ok g) ∈ log st' ∧
         head (generated_images g) = Some url) ∧
    "#"%char ∉ chars (placeholder_url primary_color secondary_color).
Proof.
  intros primary_color secondary_color.
  assert ("#"%char ∉ chars (placeholder_url primary_color secondary_color)) as Hhash.
  { unfold placeholder_url. rewrite !chars_app.
    rewrite !not_elem_of_app. split_and!.
    - vm_compute. intros Hin.
      repeat (apply elem_of_cons in Hin as [Hin|Hin]; [discriminate Hin|]).
      apply elem_of_nil in Hin. exact Hin.
    - apply remove_char_gone.
    - vm_compute. intros Hin.
      repeat (apply elem_of_cons in Hin as [Hin|Hin]; [discriminate Hin|]).
      apply elem_of_nil in Hin. exact Hin.
    - apply remove_char_gone. }
  unfold generate_branded_background, try_except. unfold_monad.
  fold primary_color secondary_color.
  set (p := branded_background_payload primary_color secondary_color style).
  destruct (call (world_submit p) (EvSubmit p) st) as [[generation_id|e] st1] eqn:Hsub.
  - destruct (_poll_generation_completion generation_id st1) as [[url|e] st2] eqn:Hpoll.
    + apply poll_cost in Hpoll as (delta & Hlog & _ & _ & Hurl).
      destruct (Hurl url eq_refl) as (g & Hin & Hhead).
      exists url, st2. split; [reflexivity|]. split; [|exact Hhash].
      right. exists generation_id, g. split; [|exact Hhead].
      rewrite Hlog. apply elem_of_app. right. exact Hin.
    + eexists _, _. split; [reflexivity|]. split; [left; reflexivity|exact Hhash].
  - eexists _, _. split; [reflexivity|]. split; [left; reflexivity|exact Hhash].
Qed.

Lemma gather_all_cost (task : string → IO W EnhancedImage) (c : nat) (cs : Z)
    (urls : list string) (st : io_state W) :
  (∀ url s, ∃ img s' d, task url s = (Ok img, s') ∧
                        log s' = (log s ++ d)%list ∧
                        (polls d ≤ c)%nat ∧ (0 ≤ slept d ≤ cs)%Z) →
  ∃ rs st' delta,
    gather_all (map task urls) st = (rs, st') ∧
    log st' = (log st ++ delta)%list ∧
    (polls delta ≤ c * length urls)%nat ∧
    (0 ≤ slept delta ≤ cs * Z.of_nat (length urls))%Z.
Proof.
  intros Htask. revert st.
  induction urls as [|url urls IH]; intros st; simpl.
  - exists [], st, []. rewrite app_nil_r.
    replace (polls []) with 0%nat by reflexivity.
    replace (slept []) with 0 by reflexivity.
    split_and!; [reflexivity|reflexivity|lia|lia|lia].
  - destruct (Htask url st) as (img & s1 & d1 & Hrun & L1 & P1 & S1).
    rewrite Hrun.
    destruct (IH s1) as (rs & s2 & d2 & Hrest & L2 & P2 & S2). rewrite Hrest.
    exists (Ok img :: rs), s2, (d1 ++ d2)%list.
    split; [reflexivity|]. split.
    { rewrite L2, L1. rewrite <- app_assoc. reflexivity. }
    rewrite polls_app, slept_app. lia.
Qed.

(** The cost of a batch: at most five images are processed, each with
    at most two passes, so a call of [enhance_product_images] polls at
    most 300 times and sleeps at most 3000 seconds in all, however many
    URLs it is given. *)
Theorem batch_cost (image_urls : list string) (style : string)
    (enhance_quality : bool) (st : io_state W) :
  ∃ imgs st' delta,
    enhance_product_images image_urls style enhance_quality st = (Ok imgs, st') ∧
    log st' = (log st ++ delta)%list ∧
    (polls delta ≤ 60 * Nat.min 5 (length image_urls))%nat ∧
    (polls delta ≤ 300)%nat ∧
    (0 ≤ slept delta ≤ 3000)%Z.
Proof.
  unfold enhance_product_images, gather_return_exceptions. unfold_monad.
  destruct (gather_all_cost
              (λ url, enhance_single_image url style enhance_quality false)
              60 600 (take 5 image_urls) st) as (rs & st' & delta & Hrun & L & P & S).
  { intros url s.
    destruct (single_image_budget url style enhance_quality false s)
      as (img & s' & d & Hrun & L & P & S).
    exists img, s', d. split; [exact Hrun|]. split; [exact L|].
    destruct enhance_quality; simpl in P, S; lia. }
  rewrite Hrun. rewrite length_take in P, S.
  eexists _, st', delta. split; [reflexivity|]. split; [exact L|]. lia.
Qed.

End EnhancerMore.

Lemma failed_download_submits_nothing_witness :
  world_download "https://shop.example/a.jpg" (world (start [RError "404"]))
    = (Raised (Exn TransportError "404"), Script [] 0) ∧
  enhance_single_image "https://shop.example/a.jpg" "modern" true false
    (start [RError "404"])
  = (Ok {| original_url := "https://shop.example/a.jpg";
           enhanced_url := "https://shop.example/a.jpg";
           style := "modern";
           processing_time := 0;
           enhancement_type := "fallback_original" |},
     IoState (Script [] 0)
       [EvDownload "https://shop.example/a.jpg" (Raised (Exn TransportError "404"))]).
Proof.
  split; [reflexivity|].
  exact (failed_download_submits_nothing "https://shop.example/a.jpg" "modern"
           true false (start [RError "404"]) (Exn TransportError "404")
           (Script [] 0) eq_refl).
Defined.

Lemma all_passes_failing_is_full_enhancement_witness :
  world_download "https://shop.example/a.jpg"
    (world (start [RBytes source_image; RError "503"; RError "503"]))
    = (Ok source_image, Script [RError "503"; RError "503"] 0) ∧
  enhancement_type
    <$> as_enhanced_image
          (enhance_single_image "https://shop.example/a.jpg" "luxury" true false
             (start [RBytes source_image; RError "503"; RError "503"])).1
  = Some "full_enhancement".
Proof.
  split; [reflexivity|].
  pose proof (all_passes_failing_is_full_enhancement
                "https://shop.example/a.jpg" "luxury"
                (start [RBytes source_image; RError "503"; RError "503"])
                source_image
                (Exn TransportError "503") (Exn TransportError "503")
                (Script [RError "503"; RError "503"] 0)
                (Script [RError "503"] 0) (Script [] 0)) as Hrun.
  rewrite Hrun; reflexivity.
Defined.

(** ** Strings *)

Lemma str_app_cons (x : ascii) (a b : string) : String x a ++ b = String x (a ++ b).
Proof. reflexivity. Qed.

Lemma str_app_nil_r (a : string) : a ++ EmptyString = a.
Proof.
  induction a as [|x a IH]; [reflexivity|].
  rewrite str_app_cons, IH. reflexivity.
Qed.

Lemma str_app_assoc (a b c : string) : (a ++ b) ++ c = a ++ b ++ c.
Proof.
  induction a as [|x a IH]; [reflexivity|].
  rewrite !str_app_cons, IH. reflexivity.
Qed.

Lemma str_length_app (a b : string) :
  String.length (a ++ b) = (String.length a + String.length b)%nat.
Proof.
  induction a as [|x a IH]; [reflexivity|].
  rewrite str_app_cons. simpl. rewrite IH. reflexivity.
Qed.

(** A slice [s[:n]] has at most [n] characters and is the start of [s]. *)
Lemma str_take_spec (n : nat) (s : string) :
  (String.length (str_take n s) ≤ n)%nat ∧ ∃ rest, s = str_take n s ++ rest.
Proof.
  unfold str_take. revert s. induction n as [|n IH]; intros s.
  - destruct s; simpl; (split; [lia|]); eexists; reflexivity.
  - destruct s as [|c s]; simpl.
    + split; [lia|]. exists EmptyString. reflexivity.
    + destruct (IH s) as [Hlen [rest Hrest]]. split; [lia|].
      exists rest. rewrite str_app_cons, <- Hrest. reflexivity.
Qed.

Lemma ascii_lower_not_upper (c : ascii) : ¬ is_upper (ascii_lower c).
Proof.
  unfold is_upper, ascii_lower.
  pose proof (nat_ascii_bounded c) as Hbound.
  destruct (Nat.leb_spec 65 (nat_of_ascii c)) as [H1|H1];
    destruct (Nat.leb_spec (nat_of_ascii c) 90) as [H2|H2]; cbv [andb];
    try lia.
  rewrite nat_ascii_embedding by lia. lia.
Qed.

Lemma lower_not_upper (s : string) (c : ascii) :
  c ∈ chars (lower s) → ¬ is_upper c.
Proof.
  induction s as [|x s IH]; simpl.
  - intros Hin. apply elem_of_nil in Hin. contradiction.
  - intros Hin. apply elem_of_cons in Hin as [-> | Hin].
    + apply ascii_lower_not_upper.
    + apply IH. exact Hin.
Qed.

Lemma remove_spaces_spec (s : string) (c : ascii) :
  c ∈ chars (remove_spaces s) → c ∈ chars s ∧ c ≠ " "%char.
Proof.
  induction s as [|x s IH]; simpl.
  - intros Hin. apply elem_of_nil in Hin. contradiction.
  - destruct (Ascii.eqb x " ") eqn:Hx.
    + intros Hin. destruct (IH Hin) as [Hs Hc]. split; [|exact Hc].
      apply elem_of_cons. right. exact Hs.
    + simpl. intros Hin. apply elem_of_cons in Hin as [-> | Hin].
      * split; [apply elem_of_cons; left; reflexivity|].
        intros ->. rewrite Ascii.eqb_refl in Hx. discriminate.
      * destruct (IH Hin) as [Hs Hc]. split; [|exact Hc].
        apply elem_of_cons. right. exact Hs.
Qed.

(** ** The store pages and the assembler *)

(** The support address of the contact page is made of the store name
    in lower case without its spaces: whatever the name, the part
    between [support@] and [.com] holds no space and no upper-case
    ASCII letter. *)
Theorem contact_address_clean (store : Store) :
  ∃ before address after,
    _generate_contact_page_content store
      = before ++ "support@" ++ address ++ ".com" ++ after ∧
    address = remove_spaces (lower (store_name store)) ∧
    ∀ c, c ∈ chars address → c ≠ " "%char ∧ ¬ is_upper c.
Proof.
  unfold _generate_contact_page_content.
  match goal with
  | |- context [?a ++ remove_spaces ?n ++ ?b] =>
      exists (String.substring 0 (String.length a - 8) a),
             (remove_spaces n),
             (String.substring 4 (String.length b) b)
  end.
  split; [|split; [reflexivity|]].
  - match goal with
    | |- ?a ++ ?x ++ ?b = ?p ++ "support@" ++ ?x ++ ".com" ++ ?q =>
        replace a with (p ++ "support@") by (vm_compute; reflexivity);
        replace b with (".com" ++ q) at 1 by (vm_compute; reflexivity)
    end.
    rewrite !str_app_assoc. reflexivity.
  - intros c Hin. apply remove_spaces_spec in Hin as [Hin Hc].
    split; [exact Hc|]. eapply lower_not_upper. exact Hin.
Qed.

Lemma dict_item_ok (d : str_dict) (key : string) :
  (∃ v, dict_item d key = Ok v) ↔ ∃ v, (key, v) ∈ d.
Proof.
  induction d as [|[k v] d IH]; simpl.
  - split; intros [v Hv]; [discriminate|]. apply elem_of_nil in Hv. contradiction.
  - destruct (String.eqb k key) eqn:Hk.
    + apply String.eqb_eq in Hk. subst k. split; intros _.
      * exists v. apply elem_of_cons. left. reflexivity.
      * exists v. reflexivity.
    + apply String.eqb_neq in Hk. rewrite IH. split; intros [v' Hv'].
      * exists v'. apply elem_of_cons. right. exact Hv'.
      * apply elem_of_cons in Hv' as [[= ? ?] | Hv']; [congruence|].
        exists v'. exact Hv'.
Qed.

Lemma faq_items_html_spec (html : string) (items : list str_dict) :
  (∃ out, faq_items_html html items = Ok out) ↔
  Forall (λ item, (∃ q, (("question", q) : string * string) ∈ item)
                  ∧ ∃ a, (("answer", a) : string * string) ∈ item) items.
Proof.
  revert html. induction items as [|item items IH]; intros html; simpl.
  - split; [constructor|]. intros _. eexists. reflexivity.
  - unfold faq_item_html. unfold mbind, outcome_bind.
    destruct (dict_item item "question") as [q|e] eqn:Hq.
    + destruct (dict_item item "answer") as [a|e] eqn:Ha.
      * rewrite IH. split.
        -- intros Hrest. constructor; [|exact Hrest].
           split; apply dict_item_ok; eauto.
        -- intros Hall. inversion Hall. assumption.
      * split; [intros [out [=]]|].
        intros Hall. inversion Hall as [|? ? [_ Hans] _]; subst.
        apply dict_item_ok in Hans as [v Hv]. congruence.
    + split; [intros [out [=]]|].
      intros Hall. inversion Hall as [|? ? [Hqs _] _]; subst.
      apply dict_item_ok in Hqs as [v Hv]. congruence.
Qed.

Lemma faq_items_html_prefix (html out : string) (items : list str_dict) :
  faq_items_html html items = Ok out → ∃ rest, out = html ++ rest.
Proof.
  revert html. induction items as [|item items IH]; intros html; simpl.
  - intros [= <-]. exists EmptyString. rewrite str_app_nil_r. reflexivity.
  - unfold mbind, outcome_bind.
    destruct (faq_item_html item) as [h|e]; [|discriminate].
    intros Hrest. destruct (IH _ Hrest) as [rest ->].
    exists (h ++ rest). rewrite str_app_assoc. reflexivity.
Qed.

(** [_format_page_content] fails on one kind of page only: an FAQ page
    is formatted exactly when every item has a question and an answer
    (otherwise a [KeyError] is raised), and a page with text content is
    always formatted. The result starts with the title as a heading. *)
Theorem format_page_content_ok (page_content : page) :
  ((∃ html, _format_page_content page_content = Ok html) ↔
   match page_content with
   | ContentPage _ _ => True
   | ItemsPage _ items =>
       Forall (λ item, (∃ q, (("question", q) : string * string) ∈ item)
                       ∧ ∃ a, (("answer", a) : string * string) ∈ item) items
   end) ∧
  ∀ html, _format_page_content page_content = Ok html →
          ∃ rest, html = "<h1>" ++ page_title_of page_content ++ "</h1>" ++ rest.
Proof.
  destruct page_content as [t c | t items]; simpl.
  - split; [split; [auto|intros _; eexists; reflexivity]|].
    intros html [= <-]. eexists. reflexivity.
  - split; [apply faq_items_html_spec|].
    intros html Hrun. apply faq_items_html_prefix in Hrun as [rest ->].
    exists rest. rewrite !str_app_assoc. reflexivity.
Qed.

(** ** The content generator *)

Section ContentMore.
Context {W : Type} `{World W} `{Library}.

(** The fallback of the product copy is bounded: when the reply is not
    JSON, the description is a prefix of the reply of at most 300
    characters and the benefits are the first features of the product,
    at most five of them; the title is the title of the product. *)
Theorem product_copy_fallback_bounded (product_info : ProductInfo)
    (st : io_state W) (content : string) (w' : W) :
  world_chat ProductCopy product_info (world st) = (Ok (Some content), w') →
  json_loads content = None →
  ∃ d bs,
    (generate_product_copy product_info st).1
      = Ok (JObj [ ("title", JStr (title product_info));
                   ("description", JStr d);
                   ("benefits", JArr (map JStr bs)) ]) ∧
    (String.length d ≤ 300)%nat ∧
    (∃ rest, content = d ++ rest) ∧
    (length bs ≤ 5)%nat ∧
    bs `prefix_of` features product_info.
Proof.
  intros Hchat Hjson.
  exists (str_take 300 content), (take 5 (features product_info)).
  split.
  - unfold generate_product_copy, chat_completions_create, call, loads_or_fallback.
    unfold_monad. rewrite Hchat. simpl. rewrite Hjson. reflexivity.
  - destruct (str_take_spec 300 content) as [Hlen Hrest].
    split; [exact Hlen|]. split; [exact Hrest|].
    split; [rewrite length_take; lia|]. apply prefix_take.
Qed.

(** A reply that is JSON but not of the expected shape is not replaced
    by a fallback: when every call answers and the product copy parses
    to a value that has no [title] (an object without the key, a list,
    a number), [generate_complete_content] raises the error of that
    lookup, whatever the other replies are. *)
Theorem malformed_shape_is_not_absorbed (product_info : ProductInfo)
    (w0 w1 w2 w3 w4 w5 w6 : W) (l : list event)
    (c0 c1 c2 c3 c4 c5 : string) (v0 : json) (e : exn) :
  world_chat ProductCopy product_info w0 = (Ok (Some c0), w1) →
  world_chat SeoContent product_info w1 = (Ok (Some c1), w2) →
  world_chat HomepageContent product_info w2 = (Ok (Some c2), w3) →
  world_chat AboutPage product_info w3 = (Ok (Some c3), w4) →
  world_chat FaqContent product_info w4 = (Ok (Some c4), w5) →
  world_chat Keywords product_info w5 = (Ok (Some c5), w6) →
  json_loads c0 = Some v0 →
  py_getitem v0 "title" = Raised e →
  (generate_complete_content product_info (IoState w0 l)).1 = Raised e.
Proof.
  intros Hc0 Hc1 Hc2 Hc3 Hc4 Hc5 Hj0 Hget.
  unfold generate_complete_content, gather, generate_product_copy,
    generate_seo_content, generate_homepage_content, generate_about_page,
    generate_faq_content, generate_keywords, chat_completions_create,
    call, loads_or_fallback.
  unfold_monad. simpl.
  rewrite Hc0; simpl. rewrite Hj0; simpl.
  rewrite Hc1; simpl. destruct (json_loads c1); simpl;
  rewrite Hc2; simpl; destruct (json_loads c2); simpl;
  rewrite Hc3; simpl;
  rewrite Hc4; simpl; destruct (json_loads c4); simpl;
  rewrite Hc5; simpl; destruct (json_loads c5); simpl;
  unfold build_content, mbind, outcome_bind; rewrite Hget; reflexivity.
Qed.

End ContentMore.

Lemma product_copy_fallback_bounded_witness :
  world_chat ProductCopy sample_info (world (start six_texts))
    = (Ok (Some "Sorry, here is some prose instead."),
       Script (replicate 5 (RChat (Some "Sorry, here is some prose instead."))) 0) ∧
  json_loads "Sorry, here is some prose instead." = None ∧
  ∃ d bs,
    (generate_product_copy sample_info (start six_texts)).1
      = Ok (JObj [ ("title", JStr (title sample_info));
                   ("description", JStr d);
                   ("benefits", JArr (map JStr bs)) ]) ∧
    (String.length d ≤ 300)%nat ∧
    (∃ rest, "Sorry, here is some prose instead." = d ++ rest) ∧
    (length bs ≤ 5)%nat ∧
    bs `prefix_of` features sample_info.
Proof.
  split; [reflexivity|]. split; [reflexivity|].
  exact (product_copy_fallback_bounded sample_info (start six_texts)
           "Sorry, here is some prose instead."
           (Script (replicate 5 (RChat (Some "Sorry, here is some prose instead."))) 0)
           eq_refl eq_refl).
Defined.

Lemma malformed_shape_is_not_absorbed_witness :
  json_loads "{}" = Some (JObj []) ∧
  py_getitem (JObj []) "title" = Raised (Exn KeyError "'title'") ∧
  (generate_complete_content sample_info
     (IoState (Script (replicate 6 (RChat (Some "{}"))) 0) [])).1
  = Raised (Exn KeyError "'title'").
Proof.
  split; [reflexivity|]. split; [reflexivity|].
  exact (malformed_shape_is_not_absorbed sample_info
           (Script (replicate 6 (RChat (Some "{}"))) 0)
           (Script (replicate 5 (RChat (Some "{}"))) 0)
           (Script (replicate 4 (RChat (Some "{}"))) 0)
           (Script (replicate 3 (RChat (Some "{}"))) 0)
           (Script (replicate 2 (RChat (Some "{}"))) 0)
           (Script (replicate 1 (RChat (Some "{}"))) 0)
           (Script [] 0) [] "{}" "{}" "{}" "{}" "{}" "{}"
           (JObj []) (Exn KeyError "'title'")
           eq_refl eq_refl eq_refl eq_refl eq_refl eq_refl eq_refl eq_refl).
Defined.

(** ** The assembler *)

Section AssemblerMore.
Context {W : Type} `{World W} `{Library}.

(** The shape of the assembled document. The assembler fails in one
    case only, a store without creation time. Otherwise the document
    has the five pages about, faq, contact, shipping and privacy in
    that order, at most three features on the homepage, a featured
    description of at most 203 characters, one enhanced URL per
    enhanced image and the original images as scraped. *)
Theorem assembled_document_shape (store : Store)
    (scraped_product : ScrapedProduct) (generated_content : GeneratedContent)
    (enhanced_images : list EnhancedImage) (st : svc_state W) :
  match (_build_store_structure store scraped_product generated_content
           enhanced_images st).1 with
  | Ok doc =>
      is_Some (created_at store) ∧
      map fst (pages doc) = ["about"; "faq"; "contact"; "shipping"; "privacy"] ∧
      (length (fs_features (hp_features_section (homepage doc))) ≤ 3)%nat ∧
      (String.length (fp_description (hp_featured_product (homepage doc))) ≤ 203)%nat ∧
      pd_images_enhanced (product doc) = map enhanced_url enhanced_images ∧
      pd_images_original (product doc) = sp_images scraped_product
  | Raised e =>
      created_at store = None ∧ exn_cls e = AttributeError
  end.
Proof.
  unfold _build_store_structure. unfold_monad.
  destruct (created_at store) as [t|]; simpl; [|split; reflexivity].
  split; [eexists; reflexivity|]. split; [reflexivity|].
  split; [rewrite length_take; lia|].
  split; [|split; reflexivity].
  rewrite str_length_app.
  destruct (str_take_spec 200 (product_description generated_content)) as [Hlen _].
  simpl. lia.
Qed.

(** The theme of the assembled document. Brand colours that are given
    replace the default colours as a whole (nothing is merged in);
    without brand colours the colours come from the table of the
    style; and a style that is neither luxury nor minimal, known to
    the tables or not, gets the colours, fonts and layout of modern. *)
Theorem assembled_theme (store : Store)
    (scraped_product : ScrapedProduct) (generated_content : GeneratedContent)
    (enhanced_images : list EnhancedImage) (st : svc_state W) (doc : store_data) :
  (_build_store_structure store scraped_product generated_content
     enhanced_images st).1 = Ok doc →
  th_style (theme doc) = theme_style store ∧
  (brand_colors store ≠ [] → th_colors (theme doc) = brand_colors store) ∧
  (brand_colors store = [] →
   th_colors (theme doc) = _generate_default_colors (theme_style store)) ∧
  (theme_style store ≠ "luxury" → theme_style store ≠ "minimal" →
   _generate_default_colors (theme_style store) = modern_colors ∧
   th_fonts (theme doc) = modern_fonts ∧
   th_layout (theme doc) = modern_layout).
Proof.
  unfold _build_store_structure. unfold_monad.
  destruct (created_at store) as [t|]; simpl; [|discriminate].
  intros [= <-]. simpl. split; [reflexivity|].
  split; [destruct (brand_colors store); [congruence|reflexivity]|].
  split; [intros ->; reflexivity|].
  intros Hl Hm. apply String.eqb_neq in Hl, Hm.
  unfold _generate_default_colors, _get_theme_fonts, _get_theme_layout.
  rewrite Hl, Hm. destruct (String.eqb (theme_style store) "modern"); auto.
Qed.

End AssemblerMore.

Lemma assembled_theme_witness :
  let store := set_progress 75 "Building store structure..." sample_store in
  let st := service_start [] [sample_store] [sample_user] in
  ∃ doc,
    (_build_store_structure store sample_product sample_content [] st).1 = Ok doc ∧
    th_style (theme doc) = theme_style store ∧
    (brand_colors store ≠ [] → th_colors (theme doc) = brand_colors store) ∧
    (brand_colors store = [] →
     th_colors (theme doc) = _generate_default_colors (theme_style store)) ∧
    (theme_style store ≠ "luxury" → theme_style store ≠ "minimal" →
     _generate_default_colors (theme_style store) = modern_colors ∧
     th_fonts (theme doc) = modern_fonts ∧
     th_layout (theme doc) = modern_layout).
Proof.
  intros store st. eexists. split; [reflexivity|].
  apply (assembled_theme store sample_product sample_content [] st).
  reflexivity.
Defined.

(** ** The orchestrator *)

Lemma checkpoints_keep (steps : list (Z * string)) (store : Store) :
  Forall (λ row, status row = status store ∧
                 ai_generated_content row = ai_generated_content store ∧
                 ∃ message, error_message row = Some message ∧
                            (generation_progress row, message) ∈ steps)
         (checkpoints steps store).
Proof.
  revert store. induction steps as [|[p m] steps IH]; intros store; simpl.
  - constructor.
  - constructor.
    + split; [reflexivity|]. split; [reflexivity|].
      exists m. split; [reflexivity|]. apply elem_of_cons. left. reflexivity.
    + specialize (IH (set_progress p m store)). simpl in IH.
      eapply Forall_impl; [exact IH|]. simpl.
      intros row (Hs & Hc & message & Hm & Hin).
      split; [exact Hs|]. split; [exact Hc|].
      exists message. split; [exact Hm|]. apply elem_of_cons. right. exact Hin.
Qed.

Section OrchestratorMore.
Context {W : Type} `{World W} `{Library}.

(** A run for a store that does not exist raises at once and changes
    nothing: no call is made and no row is written. *)
Theorem store_not_found_changes_nothing (st : svc_state W) (store_id : Z)
    (product_url : string) :
  stores st !! store_id = None →
  generate_complete_store store_id product_url st
  = (Raised (Exn PlainException ("Store " ++ pretty store_id ++ " not found")), st).
Proof.
  intros Hlookup.
  unfold generate_complete_store, try_except, query_store.
  unfold_monad. rewrite Hlookup. simpl. rewrite Hlookup. reflexivity.
Qed.

(** While a run is under way the status column is not written: every
    checkpoint row keeps the status and the document the store had
    before the run, and carries the text of the step in its
    [error_message] column. Only the last row of the run changes the
    status, to completed or to error. *)
Theorem run_writes_status_last (st : svc_state W) (store_id : Z)
    (product_url : string) (store : Store) :
  stores st !! store_id = Some store →
  Store_id store = store_id →
  ∃ r st' rows final,
    generate_complete_store store_id product_url st = (r, st') ∧
    committed st' = (committed st ++ rows ++ [final])%list ∧
    Forall (λ row, status row = status store ∧
                   ai_generated_content row = ai_generated_content store ∧
                   ∃ message, error_message row = Some message ∧
                              (generation_progress row, message) ∈ progress_messages)
           rows ∧
    stores st' !! store_id = Some final ∧
    (status final = "completed" ∨ status final = "error").
Proof.
  intros Hlookup Hid.
  destruct (generate_complete_store_rows st store_id product_url store Hlookup Hid)
    as (r & st' & k & final & Hk & Hrun & Hrows & Hfinal & Hfid & Hr).
  exists r, st', (checkpoints (take k progress_messages) store), final.
  split; [exact Hrun|]. split; [exact Hrows|]. split.
  - eapply Forall_impl; [apply checkpoints_keep|]. simpl.
    intros row (Hs & Hc & message & Hm & Hin).
    split; [exact Hs|]. split; [exact Hc|]. exists message. split; [exact Hm|].
    eapply subseteq_take. exact Hin.
  - split; [exact Hfinal|]. destruct r as [result|e].
    + left. tauto.
    + right.
      destruct (last (checkpoints (take k progress_messages) store)) as [row|];
        simpl in Hr; [|discriminate].
      injection Hr as ->. reflexivity.
Qed.

(** The background task of a generation never raises, and when the
    store exists it always leaves it in a final status: completed, or
    error with the run's failure absorbed. *)
Theorem background_generation_ends (st : svc_state W) (store_id : Z)
    (product_url : string) (store : Store) :
  stores st !! store_id = Some store →
  Store_id store = store_id →
  ∃ st' row,
    _generate_store_background store_id product_url st = (Ok tt, st') ∧
    stores st' !! store_id = Some row ∧
    (status row = "completed" ∨ status row = "error").
Proof.
  intros Hlookup Hid.
  destruct (generate_complete_store_rows st store_id product_url store Hlookup Hid)
    as (r & st' & k & final & Hk & Hrun & Hrows & Hfinal & Hfid & Hr).
  exists st', final. split; [|split; [exact Hfinal|]].
  - unfold _generate_store_background, try_except. unfold_monad.
    rewrite Hrun. destruct r; reflexivity.
  - destruct r as [result|e].
    + left. tauto.
    + right.
      destruct (last (checkpoints (take k progress_messages) store)) as [row|];
        simpl in Hr; [|discriminate].
      injection Hr as ->. reflexivity.
Qed.

End OrchestratorMore.

Lemma store_not_found_changes_nothing_witness :
  let st := service_start degraded_run [sample_store] [sample_user] in
  stores st !! 8 = None ∧
  generate_complete_store 8 product_url st
  = (Raised (Exn PlainException "Store 8 not found"), st).
Proof.
  intros st. split; [reflexivity|].
  exact (store_not_found_changes_nothing st 8 product_url eq_refl).
Defined.

Lemma run_writes_status_last_witness :
  let st := service_start degraded_run [sample_store] [sample_user] in
  stores st !! 7 = Some sample_store ∧
  Store_id sample_store = 7 ∧
  ∃ r st' rows final,
    generate_complete_store 7 product_url st = (r, st') ∧
    committed st' = (committed st ++ rows ++ [final])%list ∧
    Forall (λ row, status row = status sample_store ∧
                   ai_generated_content row = ai_generated_content sample_store ∧
                   ∃ message, error_message row = Some message ∧
                              (generation_progress row, message) ∈ progress_messages)
           rows ∧
    stores st' !! 7 = Some final ∧
    (status final = "completed" ∨ status final = "error").
Proof.
  intros st. split; [reflexivity|]. split; [reflexivity|].
  apply (run_writes_status_last st 7 product_url sample_store); reflexivity.
Defined.

Lemma background_generation_ends_witness :
  let st := service_start [RError "timeout"] [sample_store] [sample_user] in
  stores st !! 7 = Some sample_store ∧
  Store_id sample_store = 7 ∧
  ∃ st' row,
    _generate_store_background 7 product_url st = (Ok tt, st') ∧
    stores st' !! 7 = Some row ∧
    (status row = "completed" ∨ status row = "error").
Proof.
  intros st. split; [reflexivity|]. split; [reflexivity|].
  apply (background_generation_ends st 7 product_url sample_store); reflexivity.
Defined.

Section OrchestratorSuccess.
Context {W : Type} `{World W} `{Library}.

(** What a successful run leaves behind: the row of the store holds
    the very document the run returns, the number of enhanced images
    it reports (never more than five), the status completed with
    progress 100, and an empty [error_message], the status texts of
    the steps being cleared. *)
Theorem run_success_is_stored (st : svc_state W) (store_id : Z)
    (product_url : string) (store : Store) :
  stores st !! store_id = Some store →
  Store_id store = store_id →
  match generate_complete_store store_id product_url st with
  | (Ok result, st') =>
      ∃ row, stores st' !! store_id = Some row ∧
             gr_store_id result = store_id ∧
             ai_generated_content row = Some (gr_store_data result) ∧
             length (enhanced_images row) = gr_enhanced_images result ∧
             (gr_enhanced_images result ≤ 5)%nat ∧
             status row = "completed" ∧
             generation_progress row = 100 ∧
             error_message row = None
  | (Raised _, _) => True
  end.
Proof.
  intros Hlookup <-.
  unfold generate_complete_store, try_except, query_store.
  unfold_monad. rewrite Hlookup.
  unfold _update_store_progress, db_commit. unfold_monad. simpl.
  unfold lift_io at 1. simpl.
  destruct (scrape_product product_url (io st)) as [[scraped|e] io1].
  2:{ simpl. rewrite lookup_insert_eq. exact I. }
  unfold lift_io at 1. simpl.
  destruct (generate_complete_content _ io1) as [[content|e] io2].
  2:{ simpl. rewrite lookup_insert_eq. exact I. }
  simpl.
  assert (∃ r io3,
    (∀ (ss : gmap Z Store) (us : gmap Z User) (cs : list Store),
      match sp_images scraped with
      | [] => λ st0 : svc_state W, (Ok [], st0)
      | s :: l => lift_io (enhance_product_images (s :: l) (theme_style store) true)
      end (SvcState io2 ss us cs) = (r, SvcState io3 ss us cs))
    ∧ (∀ images, r = Ok images → (length images ≤ 5)%nat))
    as (r3 & io3 & Henh & Hfive).
  { destruct (sp_images scraped) as [|u rest].
    - exists (Ok []), io2. split; [reflexivity|]. intros images [= <-]. simpl. lia.
    - destruct (enhance_product_images_spec (u :: rest) (theme_style store) true io2)
        as (imgs & io3 & Hrun & Heach).
      exists (Ok imgs), io3. split.
      + intros. unfold lift_io. simpl. rewrite Hrun. reflexivity.
      + intros images [= <-]. apply each_alone_length in Heach.
        rewrite Heach, length_take. lia. }
  rewrite Henh. destruct r3 as [images|e].
  2:{ simpl. rewrite lookup_insert_eq. exact I. }
  simpl.
  match goal with
  | |- context [_build_store_structure ?s ?p ?c ?i ?state] =>
      destruct (build_store_structure_frame s p c i state) as [r4 Hb];
      rewrite Hb
  end.
  destruct r4 as [doc|e].
  2:{ simpl. rewrite lookup_insert_eq. exact I. }
  simpl. eexists. split; [apply lookup_insert_eq|]. simpl.
  split_and!; try reflexivity. apply Hfive. reflexivity.
Qed.

End OrchestratorSuccess.

Lemma run_success_is_stored_witness :
  let st := service_start degraded_run [sample_store] [sample_user] in
  stores st !! 7 = Some sample_store ∧
  Store_id sample_store = 7 ∧
  match generate_complete_store 7 product_url st with
  | (Ok result, st') =>
      ∃ row, stores st' !! 7 = Some row ∧
             gr_store_id result = 7 ∧
             ai_generated_content row = Some (gr_store_data result) ∧
             length (enhanced_images row) = gr_enhanced_images result ∧
             (gr_enhanced_images result ≤ 5)%nat ∧
             status row = "completed" ∧
             generation_progress row = 100 ∧
             error_message row = None
  | (Raised _, _) => True
  end.
Proof.
  intros st. split; [reflexivity|]. split; [reflexivity|].
  apply (run_success_is_stored st 7 product_url sample_store); reflexivity.
Defined.

(** ** The publisher *)

Section PublisherMore.
Context {W : Type} `{World W} `{Library}.

(** A call of one of the clients leaves the tables alone. *)
Lemma lift_io_tables {A} (m : IO W A) (st : svc_state W) :
  stores (lift_io m st).2 = stores st ∧
  users (lift_io m st).2 = users st ∧
  committed (lift_io m st).2 = committed st ∧
  io (lift_io m st).2 = (m (io st)).2 ∧
  (lift_io m st).1 = (m (io st)).1.
Proof. unfold lift_io. destruct (m (io st)). simpl. auto. Qed.

Lemma create_page_log (f : page_fields) (s : io_state W) :
  log s `prefix_of` log (create_page f s).2.
Proof.
  unfold create_page, call. destruct (world_create_page f (world s)).
  simpl. eexists. reflexivity.
Qed.

(** Creating the pages writes no row, and only adds to the log. *)
Lemma create_pages_frame (pages_data : list (string * page)) (st : svc_state W) :
  stores (create_pages pages_data st).2 = stores st ∧
  users (create_pages pages_data st).2 = users st ∧
  committed (create_pages pages_data st).2 = committed st ∧
  log (io st) `prefix_of` log (io (create_pages pages_data st).2).
Proof.
  revert st. induction pages_data as [|[key content] rest IH]; intros st.
  - simpl. split_and!; reflexivity.
  - simpl. unfold_monad.
    destruct (bool_decide _).
    + destruct (_format_page_content content) as [html|e]; simpl;
        [|split_and!; reflexivity].
      pose proof (lift_io_tables
                    (create_page {| pg_title := page_title_of content;
                                    pg_body_html := html;
                                    pg_published := true |}) st)
        as (Hs & Hu & Hc & Hio & Hr).
      pose proof (create_page_log
                    {| pg_title := page_title_of content;
                       pg_body_html := html;
                       pg_published := true |} (io st)) as Hlog.
      rewrite <- Hio in Hlog.
      destruct (lift_io _ st) as [[n|e] st1]; simpl in *.
      * destruct (IH st1) as (Hs' & Hu' & Hc' & Hl').
        split_and!; try congruence. etransitivity; eassumption.
      * auto.
    + apply IH.
Qed.

(** [publish_to_shopify] writes the store only when it succeeds. When
    it raises, at whatever step, the tables are as before and nothing
    was committed, so the status of the store is unchanged; when it
    returns, exactly one row was committed, the store with the status
    published and the address of the shop. *)
Theorem publish_commits_only_on_success (st : svc_state W) (store_id : Z) :
  match publish_to_shopify store_id st with
  | (Raised _, st') =>
      stores st' = stores st ∧ users st' = users st ∧
      committed st' = committed st
  | (Ok result, st') =>
      ∃ store user,
        stores st !! store_id = Some store ∧
        users st !! user_id store = Some user ∧
        let url := "https://" ++ shopify_shop_domain user in
        stores st' = <[Store_id store := set_published url store]> (stores st) ∧
        committed st' = (committed st ++ [set_published url store])%list ∧
        pr_shopify_url result = Some url ∧
        pr_status result = "published"
  end.
Proof.
  unfold publish_to_shopify, try_except, query_store, query_user.
  unfold_monad.
  destruct (stores st !! store_id) as [store|] eqn:Hstore; simpl;
    [|split_and!; reflexivity].
  destruct (users st !! user_id store) as [user|] eqn:Huser; simpl;
    [|split_and!; reflexivity].
  match goal with
  | |- context [lift_io (create_product ?f) st] =>
      pose proof (lift_io_tables (create_product f) st) as (Hs & Hu & Hc & _ & _);
      destruct (lift_io (create_product f) st) as [[pid|e] st1]
  end; simpl in *; [|auto].
  unfold _create_store_pages.
  pose proof (create_pages_frame
                (from_option pages [] (ai_generated_content store)) st1)
    as (Hs' & Hu' & Hc' & _).
  destruct (create_pages _ st1) as [[[]|e] st2]; simpl in *.
  - unfold db_commit. simpl. exists store, user.
    split; [reflexivity|]. split; [exact Huser|]. simpl.
    split_and!; try reflexivity; congruence.
  - split_and!; congruence.
Qed.

(** The publisher has no test of its own on the status: whenever the
    store and its user exist, its first call creates a product, also
    for a store that is still generating or already published. The
    product carries the title of the document (the store name when
    there is none), and since no price is passed on, the payload the
    client builds for it has the default price 29.99 and the default
    stock of 100, whatever price was scraped. *)
Theorem publisher_always_creates_product (st : svc_state W) (store_id : Z)
    (store : Store) (user : User) :
  stores st !! store_id = Some store →
  users st !! user_id store = Some user →
  ∃ f r rest,
    log (io (publish_to_shopify store_id st).2)
      = (log (io st) ++ EvCreateProduct f r :: rest)%list ∧
    pf_title f
      = from_option pd_title (store_name store)
                    (product <$> ai_generated_content store) ∧
    pp_variants (create_product_payload (product_dict_of f))
      = [ {| v_price := "29.99"; v_inventory_quantity := 100;
             v_inventory_management := "shopify" |} ].
Proof.
  intros Hstore Huser.
  unfold publish_to_shopify, try_except, query_store, query_user.
  unfold_monad. rewrite Hstore. simpl. rewrite Huser. simpl.
  match goal with
  | |- context [lift_io (create_product ?f) st] =>
      exists f;
      assert (∃ r, log (io (lift_io (create_product f) st).2)
                   = (log (io st) ++ [EvCreateProduct f r])%list) as [r Hlog]
  end.
  { unfold lift_io, create_product, call.
    destruct (world_create_product _ (world (io st))) as [r w1].
    simpl. eauto. }
  exists r.
  destruct (lift_io _ st) as [[pid|e] st1]; simpl in *.
  - unfold _create_store_pages.
    pose proof (create_pages_frame
                  (from_option pages [] (ai_generated_content store)) st1)
      as (_ & _ & _ & [rest Hrest]).
    exists rest.
    destruct (create_pages _ st1) as [[[]|e] st2]; simpl in *;
      (split; [rewrite Hrest, Hlog, <- app_assoc; reflexivity|]);
      split; reflexivity.
  - exists []. split; [exact Hlog|]. split; reflexivity.
Qed.

End PublisherMore.

Lemma publisher_always_creates_product_witness :
  let st := service_start [RId 101] [sample_store] [sample_user] in
  stores st !! 7 = Some sample_store ∧
  users st !! user_id sample_store = Some sample_user ∧
  status sample_store = "generating" ∧
  ∃ f r rest,
    log (io (publish_to_shopify 7 st).2)
      = (log (io st) ++ EvCreateProduct f r :: rest)%list ∧
    pf_title f
      = from_option pd_title (store_name sample_store)
                    (product <$> ai_generated_content sample_store) ∧
    pp_variants (create_product_payload (product_dict_of f))
      = [ {| v_price := "29.99"; v_inventory_quantity := 100;
             v_inventory_management := "shopify" |} ].
Proof.
  intros st. split; [reflexivity|]. split; [reflexivity|]. split; [reflexivity|].
  apply (publisher_always_creates_product st 7 sample_store sample_user);
    reflexivity.
Defined.

(** ** The store routes *)

Section RoutesMore.
Context {W : Type} `{World W} `{Library}.

(** A store of another user is hidden: reading it, deleting it and
    publishing it all answer 404 as if it did not exist, and nothing
    is changed or scheduled. *)
Theorem foreign_store_is_hidden (db : svc_state W) (store_id : Z)
    (current_user : User) (store : Store) :
  stores db !! store_id = Some store →
  user_id store ≠ User_id current_user →
  get_store store_id current_user db = HTTPException 404 "Store not found" ∧
  delete_store store_id current_user db
    = (HTTPException 404 "Store not found", db) ∧
  publish_store store_id current_user db
    = (HTTPException 404 "Store not found", []).
Proof.
  intros Hlookup Huser. apply Z.eqb_neq in Huser.
  unfold get_store, delete_store, publish_store, query_store_of_user.
  rewrite Hlookup, Huser. auto.
Qed.

(** Deleting one's own store removes that row and no other, makes no
    call, and from then on the store is not found by any user, whether
    to read it or to publish it. *)
Theorem delete_store_removes (db : svc_state W) (store_id : Z)
    (current_user : User) (store : Store) :
  stores db !! store_id = Some store →
  Store_id store = store_id →
  user_id store = User_id current_user →
  ∃ db',
    delete_store store_id current_user db
      = (Response "Store deleted successfully", db') ∧
    stores db' !! store_id = None ∧
    (∀ other, other ≠ store_id → stores db' !! other = stores db !! other) ∧
    io db' = io db ∧
    ∀ user,
      get_store store_id user db' = HTTPException 404 "Store not found" ∧
      publish_store store_id user db'
        = (HTTPException 404 "Store not found", []).
Proof.
  intros Hlookup Hid Huser.
  unfold delete_store, query_store_of_user.
  rewrite Hlookup, Huser, Z.eqb_refl, Hid.
  eexists. split; [reflexivity|]. simpl.
  split; [apply lookup_delete_eq|].
  split; [intros other Hother; apply lookup_delete_ne; congruence|].
  split; [reflexivity|].
  intros user. unfold get_store, publish_store, query_store_of_user. simpl.
  rewrite lookup_delete_eq. auto.
Qed.

End RoutesMore.

Lemma foreign_store_is_hidden_witness :
  let db := service_start [] [sample_store] [sample_user] in
  let stranger := {| User_id := 2; shopify_shop_domain := "other.myshopify.com";
                     shopify_access_token := "other-token"; company := None |} in
  stores db !! 7 = Some sample_store ∧
  user_id sample_store ≠ User_id stranger ∧
  get_store 7 stranger db = HTTPException 404 "Store not found" ∧
  delete_store 7 stranger db = (HTTPException 404 "Store not found", db) ∧
  publish_store 7 stranger db = (HTTPException 404 "Store not found", []).
Proof.
  intros db stranger. split; [reflexivity|]. split; [simpl; lia|].
  apply (foreign_store_is_hidden db 7 stranger sample_store);
    [reflexivity|simpl; lia].
Defined.

Lemma delete_store_removes_witness :
  let db := service_start [] [sample_store] [sample_user] in
  stores db !! 7 = Some sample_store ∧
  Store_id sample_store = 7 ∧
  user_id sample_store = User_id sample_user ∧
  ∃ db',
    delete_store 7 sample_user db = (Response "Store deleted successfully", db') ∧
    stores db' !! 7 = None ∧
    (∀ other, other ≠ 7 → stores db' !! other = stores db !! other) ∧
    io db' = io db ∧
    ∀ user,
      get_store 7 user db' = HTTPException 404 "Store not found" ∧
      publish_store 7 user db' = (HTTPException 404 "Store not found", []).
Proof.
  intros db. split; [reflexivity|]. split; [reflexivity|]. split; [reflexivity|].
  apply (delete_store_removes db 7 sample_user sample_store); reflexivity.
Defined.

(** ** From the assembler to the publisher *)

Lemma created_pages_app (a b : list event) :
  created_pages (a ++ b) = (created_pages a ++ created_pages b)%list.
Proof. unfold created_pages. apply omap_app. Qed.

Section PagesPublished.
Context {W : Type} `{World W} `{Library}.

(** On a platform that accepts every page, the pages of a dictionary
    whose keys are all known and whose contents can all be formatted
    are created one by one, in the order of the dictionary. *)
Lemma create_pages_all (pages_data : list (string * page)) (st : svc_state W) :
  (∀ f w, ∃ n w', world_create_page f w = (Ok n, w')) →
  Forall (λ kp, kp.1 ∈ ["about"; "faq"; "contact"; "shipping"; "privacy"])
         pages_data →
  Forall (λ kp, ∃ html, _format_page_content kp.2 = Ok html) pages_data →
  ∃ st' new,
    create_pages pages_data st = (Ok tt, st') ∧
    log (io st') = (log (io st) ++ new)%list ∧
    created_pages new = map (λ kp, page_title_of kp.2) pages_data ∧
    stores st' = stores st ∧ users st' = users st ∧
    committed st' = committed st.
Proof.
  intros Hpage Hkeys Hformat. revert st.
  induction pages_data as [|[key content] rest IH]; intros st.
  - exists st, []. rewrite app_nil_r. split_and!; reflexivity.
  - inversion Hkeys as [|? ? Hkey Hkeys']; subst.
    inversion Hformat as [|? ? [html Hhtml] Hformat']; subst.
    simpl in Hkey, Hhtml. simpl. unfold_monad.
    rewrite bool_decide_eq_true_2 by exact Hkey.
    rewrite Hhtml. simpl. unfold lift_io, create_page, call. simpl.
    destruct (Hpage {| pg_title := page_title_of content;
                       pg_body_html := html;
                       pg_published := true |} (world (io st)))
      as (n & w' & Hreply).
    rewrite Hreply. simpl.
    match goal with
    | |- context [create_pages rest ?s] =>
        destruct (IH Hkeys' Hformat' s)
          as (st' & new & Hrun & Hlog & Htitles & Hs & Hu & Hc)
    end.
    rewrite Hrun. simpl in *.
    eexists st', (_ :: new). split; [reflexivity|].
    split; [rewrite Hlog, <- app_assoc; reflexivity|].
    split; [|auto].
    change (page_title_of content :: created_pages new
            = page_title_of content :: map (λ kp, page_title_of kp.2) rest).
    rewrite Htitles. reflexivity.
Qed.

(** Every page the assembler makes is published: for a store that
    holds an assembled document whose FAQ items all have a question and
    an answer, on a platform that accepts every call, the publisher
    returns, and after the product it has created the five pages About
    Us, Frequently Asked Questions, Contact Us, Shipping & Returns and
    Privacy Policy, in that order. *)
Theorem assembled_pages_are_published (st st0 : svc_state W) (store_id : Z)
    (store : Store) (user : User) (doc : store_data)
    (built_for : Store) (scraped_product : ScrapedProduct)
    (generated_content : GeneratedContent)
    (enhanced_images : list EnhancedImage) :
  (∀ f w, ∃ n w', world_create_product f w = (Ok n, w')) →
  (∀ f w, ∃ n w', world_create_page f w = (Ok n, w')) →
  stores st !! store_id = Some store →
  users st !! user_id store = Some user →
  ai_generated_content store = Some doc →
  (_build_store_structure built_for scraped_product generated_content
     enhanced_images st0).1 = Ok doc →
  Forall has_question_and_answer (faq_items generated_content) →
  ∃ result st',
    publish_to_shopify store_id st = (Ok result, st') ∧
    created_pages (drop (length (log (io st))) (log (io st')))
    = [ "About Us"; "Frequently Asked Questions"; "Contact Us";
        "Shipping & Returns"; "Privacy Policy" ].
Proof.
  intros Hproduct Hpage Hstore Huser Hdoc Hbuilt Hfaq.
  assert (Hpages : pages doc =
            [ ("about", ContentPage "About Us" (about_page generated_content));
              ("faq", ItemsPage "Frequently Asked Questions"
                        (faq_items generated_content));
              ("contact", ContentPage "Contact Us"
                            (_generate_contact_page_content built_for));
              ("shipping", ContentPage "Shipping & Returns" _generate_shipping_policy);
              ("privacy", ContentPage "Privacy Policy" _generate_privacy_policy) ]).
  { unfold _build_store_structure in Hbuilt. unfold_monad.
    destruct (created_at built_for); simpl in Hbuilt; [|discriminate].
    injection Hbuilt as <-. reflexivity. }
  unfold publish_to_shopify, try_except, query_store, query_user.
  unfold_monad. rewrite Hstore. simpl. rewrite Huser. simpl.
  unfold lift_io at 1. unfold create_product, call. simpl.
  match goal with
  | |- context [world_create_product ?f (world (io st))] =>
      destruct (Hproduct f (world (io st))) as (pid & w1 & Hreply);
      rewrite Hreply
  end.
  simpl. unfold _create_store_pages. rewrite Hdoc. simpl from_option.
  match goal with
  | |- context [create_pages (pages doc) ?s] =>
      destruct (create_pages_all (pages doc) s Hpage)
        as (st2 & new & Hrun & Hlog & Htitles & Hs & Hu & Hc)
  end.
  { rewrite Hpages. repeat constructor; simpl; set_solver. }
  { rewrite Hpages.
    repeat (constructor; [simpl; try (eexists; reflexivity)|]);
      [|constructor].
    apply faq_items_html_spec. exact Hfaq. }
  rewrite Hrun. simpl. unfold db_commit. simpl.
  eexists _, _. split; [reflexivity|]. simpl.
  rewrite Hlog. simpl. rewrite <- app_assoc. rewrite drop_app_length.
  change (created_pages new
          = [ "About Us"; "Frequently Asked Questions"; "Contact Us";
              "Shipping & Returns"; "Privacy Policy" ]).
  rewrite Htitles, Hpages. reflexivity.
Qed.

End PagesPublished.

Lemma assembled_pages_are_published_witness :
  let st := obliging_service [ready_store] [sample_user] in
  ∃ result st',
    publish_to_shopify 7 st = (Ok result, st') ∧
    created_pages (drop (length (log (io st))) (log (io st')))
    = [ "About Us"; "Frequently Asked Questions"; "Contact Us";
        "Shipping & Returns"; "Privacy Policy" ].
Proof.
  intros st.
  eapply (assembled_pages_are_published st st 7
            ready_store sample_user _ sample_store sample_product
            sample_content []).
  - intros f w. eexists _, _. reflexivity.
  - intros f w. eexists _, _. reflexivity.
  - reflexivity.
  - reflexivity.
  - reflexivity.
  - reflexivity.
  - constructor.
Defined.
